(** * The Accounting API example client (docs/examples/python-client.py)

    A shallow embedding of the class [AccountingApiClient]: the client object
    is a record; a method that uses [self] is a function in a small monad
    that threads the object, may raise, and may perform calls of the HTTP
    session; a function that only computes or raises lives in [outcome].
    The network is not part of the program: a run is executed against an
    arbitrary answering function and the exchanges are recorded. *)

From Stdlib Require Import ZArith Floats.SpecFloat.
From stdpp Require Import gmap strings list fin_maps pretty.

#[local] Set Warnings "-register-all".
#[local] Open Scope Z_scope.

(** ** Python values

    The values the client handles are the ones [json.loads] produces (and the
    ones a caller passes as a JSON body or as keyword arguments): [None],
    [bool], [int], [float], [str], [list] and [dict] with string keys. *)

Inductive value : Type :=
  | JNull
  | JBool (b : bool)
  | JInt (n : Z)
  | JFloat (f : spec_float)
  | JStr (s : string)
  | JArr (l : list value)
  | JObj (m : gmap string value).

(** Truth value of an object, as tested by [if v:] and [if not v:]. *)
Definition truthy (v : value) : bool :=
  match v with
  | JNull => false
  | JBool b => b
  | JInt n => negb (n =? 0)
  | JFloat (S754_zero _) => false
  | JFloat _ => true
  | JStr s => negb (String.eqb s EmptyString)
  | JArr l => negb (Nat.eqb (length l) 0)
  | JObj m => negb (Nat.eqb (size m) 0)
  end.

(** ** The part of the [requests] library the client calls *)

Inductive Method : Type := GET | POST.

(** What a call of [Session.get] / [Session.post] puts on the wire, as far as
    the client decides it: the headers are the session's merged with the
    call's, [params] are the query parameters in the order given, [json] is
    the [json=] argument, the value serialised as the body ([None] when the
    call gives none). *)
Record Request : Type := mkRequest {
  method : Method;
  url : string;
  headers : gmap string string;
  params : list (string * value);
  json : value
}.

(** The response object the session hands back (the final one, after the
    library followed redirects).  [decoded] is the result of [Response.json()]:
    the value of the body read as JSON, [None] when the body is not JSON. *)
Record Response : Type := mkResponse {
  status_code : Z;
  content : string;
  decoded : option value
}.

(** Outcome of a session call: a response, or an exception of the library
    (connection refused, timeout, invalid URL, ...). *)
Inductive Reply : Type :=
  | Responded (r : Response)
  | Failed (what : string).

Record Session : Type := mkSession {
  session_headers : gmap string string
}.

(** Exceptions the client's methods can leave with. *)
Inductive exn : Type :=
  | Exception (msg : string)
  | HTTPError (response : Response)
  | JSONDecodeError (response : Response)
  | RequestException (what : string)
  | KeyError (key : string)
  | TypeError (v : value).

(** [requests.sessions.merge_setting] on headers: the call's headers are laid
    over the session's. *)
Definition merge_setting (request_setting : option (gmap string string))
    (session_setting : gmap string string) : gmap string string :=
  match request_setting with
  | None => session_setting
  | Some h => h ∪ session_setting
  end.

(** [requests.utils.default_headers()]; the user agent and the accepted
    encodings depend on the installed version of the library. *)
Definition default_headers (user_agent accept_encoding : string)
    : gmap string string :=
  {[ "User-Agent" := user_agent;
     "Accept-Encoding" := accept_encoding;
     "Accept" := "*/*";
     "Connection" := "keep-alive" ]}.

(** ** The client object and the monad of its methods *)

Record AccountingApiClient : Type := mkClient {
  base_url : string;
  access_token : value;
  refresh_token : value;
  session : Session
}.

Inductive outcome (A : Type) : Type :=
  | Returned (a : A)
  | Raised (e : exn).
Arguments Returned {A} a.
Arguments Raised {A} e.

#[global] Instance outcome_ret : MRet outcome := fun A a => Returned a.
#[global] Instance outcome_bind : MBind outcome := fun A B f o =>
  match o with
  | Returned a => f a
  | Raised e => Raised e
  end.

(** A method run: finished (with the object as the method left it), or about
    to perform a session call and continue with its reply. *)
Inductive run (A : Type) : Type :=
  | Done (o : outcome A) (self : AccountingApiClient)
  | Perform (rq : Request) (k : Reply -> run A).
Arguments Done {A} o self.
Arguments Perform {A} rq k.

Definition M (A : Type) : Type := AccountingApiClient -> run A.

Fixpoint bind_run {A B : Type} (r : run A) (f : A -> M B) : run B :=
  match r with
  | Done (Returned a) self => f a self
  | Done (Raised e) self => Done (Raised e) self
  | Perform rq k => Perform rq (fun rep => bind_run (k rep) f)
  end.

#[global] Instance M_ret : MRet M := fun A a self => Done (Returned a) self.
#[global] Instance M_bind : MBind M := fun A B f m self => bind_run (m self) f.

(** A computation that does not involve the object, called from a method. *)
Definition lift {A : Type} (o : outcome A) : M A := fun self => Done o self.

Definition raise {A : Type} (e : exn) : M A := lift (Raised e).

(** [self], read. *)
Definition this : M AccountingApiClient := fun self => Done (Returned self) self.

(** [self.access_token = v] and [self.refresh_token = v]. *)
Definition with_access_token (v : value) (self : AccountingApiClient)
    : AccountingApiClient :=
  {| base_url := base_url self; access_token := v;
     refresh_token := refresh_token self; session := session self |}.

Definition with_refresh_token (v : value) (self : AccountingApiClient)
    : AccountingApiClient :=
  {| base_url := base_url self; access_token := access_token self;
     refresh_token := v; session := session self |}.

Definition set_access_token (v : value) : M unit := fun self =>
  Done (Returned tt) (with_access_token v self).

Definition set_refresh_token (v : value) : M unit := fun self =>
  Done (Returned tt) (with_refresh_token v self).

(** [self.session.request(method, url, headers=, params=, json=)]: one
    exchange; an exception of the library propagates. *)
Definition session_request (m : Method) (u : string)
    (hdrs : option (gmap string string)) (ps : list (string * value))
    (body : value) : M Response := fun self =>
  Perform
    {| method := m; url := u;
       headers := merge_setting hdrs (session_headers (session self));
       params := ps; json := body |}
    (fun rep =>
       match rep with
       | Responded r => Done (Returned r) self
       | Failed what => Done (Raised (RequestException what)) self
       end).

(** [response.raise_for_status()]: raises for the client errors 400-499 and
    the server errors 500-599, and for nothing else. *)
Definition raise_for_status (response : Response) : outcome unit :=
  if (400 <=? status_code response) && (status_code response <? 600)
  then Raised (HTTPError response)
  else Returned tt.

(** [response.json()]. *)
Definition response_json (response : Response) : outcome value :=
  match decoded response with
  | Some v => Returned v
  | None => Raised (JSONDecodeError response)
  end.

(** [v[key]] for a string key: only a dict can be indexed so. *)
Definition getitem (v : value) (key : string) : outcome value :=
  match v with
  | JObj m =>
      match m !! key with
      | Some x => Returned x
      | None => Raised (KeyError key)
      end
  | _ => Raised (TypeError v)
  end.

(** Running a method against the outside world: [server] answers each
    session call; the result is the outcome, the object afterwards, and the
    exchanges in order. *)
Fixpoint exec {A : Type} (server : Request -> Reply) (r : run A)
    : outcome A * AccountingApiClient * list (Request * Reply) :=
  match r with
  | Done o self => (o, self, [])
  | Perform rq k =>
      let rep := server rq in
      let '(o, self, t) := exec server (k rep) in
      (o, self, (rq, rep) :: t)
  end.

Definition result_of {A : Type}
    (x : outcome A * AccountingApiClient * list (Request * Reply)) : outcome A :=
  fst (fst x).
Definition client_after {A : Type}
    (x : outcome A * AccountingApiClient * list (Request * Reply))
    : AccountingApiClient :=
  snd (fst x).
Definition exchanges {A : Type}
    (x : outcome A * AccountingApiClient * list (Request * Reply))
    : list (Request * Reply) :=
  snd x.

(** ** The class *)

Definition default_base_url : string := "http://localhost:3000/api/v1".

Definition __init__ (user_agent accept_encoding : string) (base_url : string)
    : AccountingApiClient :=
  {| base_url := base_url;
     access_token := JNull;
     refresh_token := JNull;
     session :=
       {| session_headers :=
            {[ "Content-Type" := "application/json";
               "Accept" := "application/json" ]}
            ∪ default_headers user_agent accept_encoding |} |}.

Section Methods.

(** [repr] of a float, a list or a dict (the digits of a float and the
    quoting of nested strings are the interpreter's business). *)
Variable repr : value -> string.

(** [f'{v}']. *)
Definition py_format (v : value) : string :=
  match v with
  | JStr s => s
  | JNull => "None"
  | JBool true => "True"
  | JBool false => "False"
  | JInt n => pretty n
  | JFloat _ | JArr _ | JObj _ => repr v
  end.

Definition _get_headers (self : AccountingApiClient) : gmap string string :=
  if truthy (access_token self)
  then <["Authorization" := "Bearer " +:+ py_format (access_token self)]> ∅
  else ∅.

(** The method takes [self] and never uses it. *)
Definition _handle_response (response : Response) : outcome value :=
  if status_code response =? 401
  then Raised (Exception "Authentication failed. Please login again.")
  else raise_for_status response ;; response_json response.

Definition login (email password organization_id : string) : M value :=
  self ← this;
  let url := base_url self +:+ "/auth/login" in
  let data := JObj {[ "email" := JStr email;
                      "password" := JStr password;
                      "organizationId" := JStr organization_id ]} in
  response ← session_request POST url None [] data;
  result ← lift (_handle_response response);
  a ← lift (getitem result "accessToken");
  set_access_token a ;;
  b ← lift (getitem result "refreshToken");
  set_refresh_token b ;;
  mret result.

Definition refresh_access_token : M value :=
  self ← this;
  if negb (truthy (refresh_token self))
  then raise (Exception "No refresh token available")
  else
    let url := base_url self +:+ "/auth/refresh" in
    let data := JObj {[ "refreshToken" := refresh_token self ]} in
    response ← session_request POST url None [] data;
    result ← lift (_handle_response response);
    a ← lift (getitem result "accessToken");
    set_access_token a ;;
    b ← lift (getitem result "refreshToken");
    set_refresh_token b ;;
    mret result.

Definition get_customers (params : list (string * value)) : M value :=
  self ← this;
  let url := base_url self +:+ "/customers" in
  let headers := _get_headers self in
  response ← session_request GET url (Some headers) params JNull;
  lift (_handle_response response).

Definition create_customer (customer_data : value) : M value :=
  self ← this;
  let url := base_url self +:+ "/customers" in
  let headers := _get_headers self in
  response ← session_request POST url (Some headers) [] customer_data;
  lift (_handle_response response).

Definition get_customer (customer_id : string) : M value :=
  self ← this;
  let url := base_url self +:+ "/customers/" +:+ customer_id in
  let headers := _get_headers self in
  response ← session_request GET url (Some headers) [] JNull;
  lift (_handle_response response).

Definition create_invoice (invoice_data : value) : M value :=
  self ← this;
  let url := base_url self +:+ "/invoices" in
  let headers := _get_headers self in
  response ← session_request POST url (Some headers) [] invoice_data;
  lift (_handle_response response).

Definition get_invoices (params : list (string * value)) : M value :=
  self ← this;
  let url := base_url self +:+ "/invoices" in
  let headers := _get_headers self in
  response ← session_request GET url (Some headers) params JNull;
  lift (_handle_response response).

End Methods.

(** ** The public interface, as one type of calls *)

Inductive Call : Type :=
  | Login (email password organization_id : string)
  | RefreshAccessToken
  | GetCustomers (params : list (string * value))
  | CreateCustomer (customer_data : value)
  | GetCustomer (customer_id : string)
  | CreateInvoice (invoice_data : value)
  | GetInvoices (params : list (string * value)).

Definition invoke (repr : value -> string) (c : Call) : M value :=
  match c with
  | Login email password organization_id =>
      login email password organization_id
  | RefreshAccessToken => refresh_access_token
  | GetCustomers params => get_customers repr params
  | CreateCustomer customer_data => create_customer repr customer_data
  | GetCustomer customer_id => get_customer repr customer_id
  | CreateInvoice invoice_data => create_invoice repr invoice_data
  | GetInvoices params => get_invoices repr params
  end.

(** The two calls that manage the tokens, and the five that use them. *)
Definition is_auth_call (c : Call) : bool :=
  match c with
  | Login _ _ _ | RefreshAccessToken => true
  | _ => false
  end.


(** A history of calls, each against the server of its moment, and the client
    object it leaves. *)
Fixpoint run_calls (repr : value -> string)
    (history : list ((Request -> Reply) * Call)) (self : AccountingApiClient)
    : AccountingApiClient :=
  match history with
  | [] => self
  | (server, c) :: rest =>
      run_calls repr rest (client_after (exec server (invoke repr c self)))
  end.

(** ** The driver [example_usage]

    The driver holds the client in a local variable and prints to the
    standard output; its runs are like a method's, with the output so far
    beside the client: the texts printed, one per call of [print], in order.
    A text may itself hold line breaks, when a printed value does. *)

Inductive script (A : Type) : Type :=
  | Ended (o : outcome A) (client : AccountingApiClient) (stdout : list string)
  | Exchange (rq : Request) (k : Reply -> script A).
Arguments Ended {A} o client stdout.
Arguments Exchange {A} rq k.

Definition S (A : Type) : Type :=
  AccountingApiClient -> list string -> script A.

Fixpoint bind_script {A B : Type} (s : script A) (f : A -> S B) : script B :=
  match s with
  | Ended (Returned a) client out => f a client out
  | Ended (Raised e) client out => Ended (Raised e) client out
  | Exchange rq k => Exchange rq (fun rep => bind_script (k rep) f)
  end.

#[global] Instance S_ret : MRet S := fun A a client out =>
  Ended (Returned a) client out.
#[global] Instance S_bind : MBind S := fun A B f m client out =>
  bind_script (m client out) f.

(** [client.method(...)]. *)
Fixpoint call_run {A : Type} (r : run A) (out : list string) : script A :=
  match r with
  | Done o client => Ended o client out
  | Perform rq k => Exchange rq (fun rep => call_run (k rep) out)
  end.

Definition call {A : Type} (m : M A) : S A := fun client out =>
  call_run (m client) out.

(** An expression that may raise, such as [d['k']]. *)
Definition eval {A : Type} (o : outcome A) : S A := fun client out =>
  Ended o client out.

(** [print(line)]: one more text on the output.  The write itself is taken
    to succeed. *)
Definition print (line : string) : S unit := fun client out =>
  Ended (Returned tt) client (out ++ [line]).

(** [try: body  except Exception as e: handler(e)]; every exception of
    [exn] is an [Exception]. *)
Fixpoint catch {A : Type} (s : script A) (handler : exn -> S A) : script A :=
  match s with
  | Ended (Returned a) client out => Ended (Returned a) client out
  | Ended (Raised e) client out => handler e client out
  | Exchange rq k => Exchange rq (fun rep => catch (k rep) handler)
  end.

Definition try_except {A : Type} (body : S A) (handler : exn -> S A) : S A :=
  fun client out => catch (body client out) handler.

(** Running the driver: the outcome, the client, the texts printed and the
    exchanges, each in order. *)
Fixpoint play {A : Type} (server : Request -> Reply) (s : script A)
    : outcome A * AccountingApiClient * list string * list (Request * Reply) :=
  match s with
  | Ended o client out => (o, client, out, [])
  | Exchange rq k =>
      let rep := server rq in
      let '(o, client, out, t) := play server (k rep) in
      (o, client, out, (rq, rep) :: t)
  end.

Definition script_result {A : Type}
    (x : outcome A * AccountingApiClient * list string * list (Request * Reply))
    : outcome A :=
  fst (fst (fst x)).
Definition script_client {A : Type}
    (x : outcome A * AccountingApiClient * list string * list (Request * Reply))
    : AccountingApiClient :=
  snd (fst (fst x)).
Definition script_stdout {A : Type}
    (x : outcome A * AccountingApiClient * list string * list (Request * Reply))
    : list string :=
  snd (fst x).
Definition script_exchanges {A : Type}
    (x : outcome A * AccountingApiClient * list string * list (Request * Reply))
    : list (Request * Reply) :=
  snd x.

Definition new_customer_data : value :=
  JObj {[ "type" := JStr "PERSON";
          "tier" := JStr "PERSONAL";
          "firstName" := JStr "Jane";
          "lastName" := JStr "Smith";
          "email" := JStr "jane.smith@example.com";
          "phone" := JStr "+1 (555) 987-6543";
          "address" :=
            JObj {[ "street" := JStr "456 Oak Ave";
                    "city" := JStr "Vancouver";
                    "province" := JStr "BC";
                    "postalCode" := JStr "V6B 1A1";
                    "country" := JStr "Canada" ]} ]}.

Definition invoice_data (customer_id : value) (due_date : string) : value :=
  JObj {[ "customerId" := customer_id;
          "items" :=
            JArr [ JObj {[ "description" := JStr "Consulting Services";
                           "quantity" := JStr "10.00";
                           "unitPrice" := JStr "100.00";
                           "total" := JStr "1000.00" ]} ];
          "subtotal" := JStr "1000.00";
          "taxRate" := JStr "0.13";
          "taxAmount" := JStr "130.00";
          "total" := JStr "1130.00";
          "dueDate" := JStr due_date ]}.

Section Driver.

(** The library's default headers, as for [__init__]. *)
Variables user_agent accept_encoding : string.
Variable repr : value -> string.

(** [str(e)] of an exception other than a plain [Exception]: the message
    texts of the library and of the interpreter. *)
Variable describe : exn -> string.

(** [(datetime.now() + timedelta(days=30)).isoformat()], read off the clock
    when the invoice is built. *)
Variable due_date : string.

(** [str(e)]. *)
Definition str_exn (e : exn) : string :=
  match e with
  | Exception msg => msg
  | _ => describe e
  end.

(** The body of the [try]. *)
Definition example_steps : S unit :=
  login_result ← call (login "admin@example.com" "SecurePassword123!"
                         "550e8400-e29b-41d4-a716-446655440000");
  user ← eval (getitem login_result "user");
  email ← eval (getitem user "email");
  print ("Login successful: " +:+ py_format repr email) ;;
  customers ← call (get_customers repr
                      [("limit", JInt 20); ("offset", JInt 0);
                       ("sort_by", JStr "createdAt");
                       ("sort_order", JStr "desc")]);
  meta ← eval (getitem customers "meta");
  total ← eval (getitem meta "total");
  print ("Found " +:+ py_format repr total +:+ " customers") ;;
  new_customer ← call (create_customer repr new_customer_data);
  created ← eval (getitem new_customer "id");
  print ("New customer created: " +:+ py_format repr created) ;;
  customer_id ← eval (getitem new_customer "id");
  new_invoice ← call (create_invoice repr (invoice_data customer_id due_date));
  invoiced ← eval (getitem new_invoice "id");
  print ("New invoice created: " +:+ py_format repr invoiced).

Definition example_usage : script unit :=
  let client := __init__ user_agent accept_encoding default_base_url in
  try_except example_steps
    (fun e => print ("Error: " +:+ str_exn e))
    client [].

End Driver.

(** ** Concrete clients, replies and bodies used in the examples below *)

(** No float, list or dict is formatted in the examples. *)
Definition example_repr : value -> string := fun _ => "...".

Definition example_client : AccountingApiClient :=
  __init__ "python-requests/2.31.0" "gzip, deflate" default_base_url.

Definition logged_in_client : AccountingApiClient :=
  with_refresh_token (JStr "b") (with_access_token (JStr "a") example_client).

(** A client whose access token is the empty string. *)
Definition empty_token_client : AccountingApiClient :=
  with_access_token (JStr EmptyString) example_client.

(** A server that answers every request alike. *)
Definition answer (status : Z) (text : string) (body : option value)
    : Request -> Reply :=
  fun _ => Responded {| status_code := status; content := text; decoded := body |}.

Definition login_body : gmap string value :=
  {[ "accessToken" := JStr "a";
     "refreshToken" := JStr "b";
     "user" := JObj {[ "email" := JStr "admin@example.com" ]} ]}.

(** The text of a JSON object, from its keys and the texts of its values. *)
Definition quote (s : string) : string :=
  String (Ascii.ascii_of_nat 34) s +:+ String (Ascii.ascii_of_nat 34) EmptyString.

Fixpoint members (l : list (string * string)) : string :=
  match l with
  | [] => EmptyString
  | [(k, v)] => quote k +:+ ":" +:+ v
  | (k, v) :: l' => quote k +:+ ":" +:+ v +:+ "," +:+ members l'
  end.

Definition object_text (l : list (string * string)) : string :=
  "{" +:+ members l +:+ "}".

Definition login_text : string :=
  object_text
    [("accessToken", quote "a"); ("refreshToken", quote "b");
     ("user", object_text [("email", quote "admin@example.com")])].

Definition customers_text : string :=
  object_text [("data", "[]"); ("meta", object_text [("total", "0")])].

Definition expired_text : string :=
  object_text [("error", quote "expired")].

Definition access_only_body : gmap string value :=
  {[ "accessToken" := JStr "a2" ]}.

Definition customers_page : value :=
  JObj {[ "data" := JArr []; "meta" := JObj {[ "total" := JInt 0 ]} ]}.

Definition page_params : list (string * value) :=
  [("limit", JInt 20); ("offset", JInt 0)].

(** A server that is not there. *)
Definition refusing : Request -> Reply :=
  fun _ => Failed "Connection refused".

(** A server on which every step of the driver succeeds. *)
Definition shop (rq : Request) : Reply :=
  if String.eqb (url rq) (default_base_url +:+ "/auth/login")
  then answer 200 login_text (Some (JObj login_body)) rq
  else if String.eqb (url rq) (default_base_url +:+ "/invoices")
  then answer 201 (object_text [("id", quote "inv-1")])
         (Some (JObj {[ "id" := JStr "inv-1" ]})) rq
  else match method rq with
       | GET => answer 200 customers_text (Some customers_page) rq
       | POST => answer 201 (object_text [("id", quote "cus-1")])
                   (Some (JObj {[ "id" := JStr "cus-1" ]})) rq
       end.

(** Clients with falsy tokens. *)
Definition blank_refresh_client : AccountingApiClient :=
  with_refresh_token (JStr EmptyString) logged_in_client.

Definition zero_token_client : AccountingApiClient :=
  with_access_token (JInt 0) example_client.

Definition refresh_only_body : gmap string value :=
  {[ "refreshToken" := JStr "b2" ]}.

Definition example_login : Call :=
  Login "admin@example.com" "SecurePassword123!"
    "550e8400-e29b-41d4-a716-446655440000".

Definition example_history : list ((Request -> Reply) * Call) :=
  [ (answer 200 login_text (Some (JObj login_body)), example_login);
    (answer 401 expired_text None, GetCustomers page_params);
    (refusing, RefreshAccessToken) ].

(** In the examples no exception is printed but the plain one. *)
Definition example_describe : exn -> string := fun _ => "...".

Definition example_due_date : string := "2026-12-03T10:00:00".

(** The shop behind a server that fails every request but the login. *)
Definition shop_login_only (rq : Request) : Reply :=
  if String.eqb (url rq) (default_base_url +:+ "/auth/login")
  then shop rq
  else answer 500 "Internal Server Error" None rq.

(** The shop refusing invoices. *)
Definition shop_without_invoices (rq : Request) : Reply :=
  if String.eqb (url rq) (default_base_url +:+ "/invoices")
  then answer 422 "Unprocessable Entity" None rq
  else shop rq.

(** * Properties *)

Definition auth_failed : exn :=
  Exception "Authentication failed. Please login again.".

(** What [login] and [refresh_access_token] do with a reply. *)
Definition after_reply (self : AccountingApiClient) (rep : Reply)
    (x : outcome value * AccountingApiClient) : Prop :=
  match rep with
  | Failed what => x = (Raised (RequestException what), self)
  | Responded r =>
      match _handle_response r with
      | Raised e => x = (Raised e, self)
      | Returned result =>
          match getitem result "accessToken" with
          | Raised e => x = (Raised e, self)
          | Returned a =>
              match getitem result "refreshToken" with
              | Raised e => x = (Raised e, with_access_token a self)
              | Returned b =>
                  x = (Returned result,
                       with_refresh_token b (with_access_token a self))
              end
          end
      end
  end.

Ltac run_method :=
  cbv [invoke login refresh_access_token get_customers create_customer
       get_customer create_invoice get_invoices
       mbind M_bind mret M_ret this session_request raise lift
       set_access_token set_refresh_token exec bind_run merge_setting].

(** The request of the run in the goal, as the witness of an existential. *)
Ltac the_request :=
  match goal with
  | |- context [?server {| method := ?m; url := ?u; headers := ?h;
                           params := ?p; json := ?j |}] =>
      exists {| method := m; url := u; headers := h; params := p; json := j |}
  end.

Ltac run_driver :=
  cbv [example_usage example_steps try_except catch bind_script call call_run
       eval print play S_bind S_ret mbind mret
       login get_customers create_customer create_invoice
       M_bind M_ret this session_request raise lift
       set_access_token set_refresh_token bind_run merge_setting
       script_result script_client script_stdout script_exchanges
       exec result_of client_after exchanges fst snd].

(** Runs the driver in the goal to its end, splitting on each reply, on each
    verdict of the checkpoint and on each indexing. *)
Ltac split_run server :=
  run_driver;
  repeat
    (match goal with
     | |- context [server ?rq] => destruct (server rq) as [?r|?w]
     | |- context [_handle_response ?r] =>
         destruct (_handle_response r) as [?v|?e] eqn:?
     | |- context [getitem ?v ?k] =>
         destruct (getitem v k) as [?x|?e] eqn:?
     end; run_driver).

(** Splits on the lookups of a step whose outcome [F] states. *)
Ltac case_lookups F :=
  unfold mbind, outcome_bind in F; cbv beta iota in F; cbn [bind_script];
  repeat match type of F with
         | context [getitem ?v ?k] =>
             revert F; destruct (getitem v k); intros F;
             cbv beta iota in F; cbn [bind_script]; try discriminate F
         end.

(** ** The response checkpoint *)

Lemma handle_response_401 (r : Response) :
  status_code r = 401 -> _handle_response r = Raised auth_failed.
Proof.
  intros H. unfold _handle_response. now rewrite H.
Qed.

Lemma handle_response_http_error (r : Response) :
  400 <= status_code r < 600 -> status_code r <> 401 ->
  _handle_response r = Raised (HTTPError r).
Proof.
  intros [Hlo Hhi] Hne. unfold _handle_response, raise_for_status.
  destruct (Z.eqb_spec (status_code r) 401) as [E|_]; [contradiction|].
  apply Z.leb_le in Hlo. apply Z.ltb_lt in Hhi.
  now rewrite Hlo, Hhi.
Qed.

Lemma handle_response_other (r : Response) :
  status_code r <> 401 -> ~ 400 <= status_code r < 600 ->
  _handle_response r = response_json r.
Proof.
  intros Hne Hout. unfold _handle_response, raise_for_status.
  destruct (Z.eqb_spec (status_code r) 401) as [E|_]; [contradiction|].
  destruct (Z.leb_spec 400 (status_code r)) as [Hlo|Hlo];
    destruct (Z.ltb_spec (status_code r) 600) as [Hhi|Hhi];
    cbn; try reflexivity.
  exfalso. apply Hout. lia.
Qed.

Lemma handle_response_2xx (r : Response) (v : value) :
  200 <= status_code r < 300 -> decoded r = Some v ->
  _handle_response r = Returned v.
Proof.
  intros H2 Hv. rewrite handle_response_other by lia.
  unfold response_json. now rewrite Hv.
Qed.

(** What the checkpoint can raise, and when. *)
Lemma handle_response_raised (r : Response) (e : exn) :
  _handle_response r = Raised e ->
  (status_code r = 401 /\ e = auth_failed)
  \/ (400 <= status_code r < 600 /\ status_code r <> 401 /\ e = HTTPError r)
  \/ (~ 400 <= status_code r < 600 /\ decoded r = None
      /\ e = JSONDecodeError r).
Proof.
  destruct (Z.eq_dec (status_code r) 401) as [E|Hne].
  - rewrite handle_response_401 by assumption. intros [= <-]. now left.
  - destruct (Z.le_gt_cases 400 (status_code r)) as [Hlo|Hlo];
      [destruct (Z.lt_ge_cases (status_code r) 600) as [Hhi|Hhi]|].
    + rewrite handle_response_http_error by lia. intros [= <-].
      right; left. repeat split; lia || reflexivity.
    + rewrite handle_response_other by lia. unfold response_json.
      destruct (decoded r); [discriminate|]. intros [= <-].
      right; right. repeat split; lia || reflexivity.
    + rewrite handle_response_other by lia. unfold response_json.
      destruct (decoded r); [discriminate|]. intros [= <-].
      right; right. repeat split; lia || reflexivity.
Qed.

(** Indexing raises only [KeyError] of the key asked for, or [TypeError]. *)
Lemma getitem_raised (v : value) (key : string) (e : exn) :
  getitem v key = Raised e -> e = KeyError key \/ e = TypeError v.
Proof.
  destruct v; cbn; try (intros [= <-]; now right).
  destruct (m !! key); [discriminate|]. intros [= <-]. now left.
Qed.

(** ** The shape of a call

    Each method performs at most one exchange; what happens after it depends
    on the reply alone. *)

Section Shape.
Variable repr : value -> string.
Variable server : Request -> Reply.

(** The five resource methods: one exchange, the checkpoint, no assignment. *)
Lemma resource_call_shape (c : Call) (self : AccountingApiClient) :
  is_auth_call c = false ->
  exists rq : Request,
    headers rq = _get_headers repr self ∪ session_headers (session self)
    /\ exec server (invoke repr c self) =
         (match server rq with
          | Responded r => _handle_response r
          | Failed what => Raised (RequestException what)
          end, self, [(rq, server rq)]).
Proof.
  destruct c; try discriminate; intros _; run_method;
    the_request; (split; [reflexivity|]);
    destruct (server _) as [r|w];
    try destruct (_handle_response r); reflexivity.
Qed.

(** The two token methods: the check of the refresh token, or one exchange
    without headers of the call's own, then the assignments one by one. *)
Lemma auth_call_shape (c : Call) (self : AccountingApiClient) :
  is_auth_call c = true ->
  (c = RefreshAccessToken /\ truthy (refresh_token self) = false
   /\ exec server (invoke repr c self) =
        (Raised (Exception "No refresh token available"), self, []))
  \/ exists rq : Request,
       headers rq = session_headers (session self)
       /\ after_reply self (server rq) (fst (exec server (invoke repr c self)))
       /\ exchanges (exec server (invoke repr c self)) = [(rq, server rq)].
Proof.
  destruct c; try discriminate; intros _.
  - right. run_method. the_request. split; [reflexivity|].
    unfold after_reply, exchanges.
    destruct (server _) as [r|w]; [|split; reflexivity].
    destruct (_handle_response r) as [v|e]; [|split; reflexivity].
    destruct (getitem v "accessToken") as [a|e]; [|split; reflexivity].
    destruct (getitem v "refreshToken") as [b|e]; split; reflexivity.
  - run_method. destruct (truthy (refresh_token self)) eqn:T; cbn [negb].
    + right. the_request. split; [reflexivity|].
      unfold after_reply, exchanges.
      destruct (server _) as [r|w]; [|split; reflexivity].
      destruct (_handle_response r) as [v|e]; [|split; reflexivity].
      destruct (getitem v "accessToken") as [a|e]; [|split; reflexivity].
      destruct (getitem v "refreshToken") as [b|e]; split; reflexivity.
    + left. auto.
Qed.

End Shape.

(** ** The headers a method passes *)

Section Headers.
Variable repr : value -> string.

Lemma get_headers_truthy (self : AccountingApiClient)
    (sh : gmap string string) :
  truthy (access_token self) = true ->
  (_get_headers repr self ∪ sh) !! "Authorization"
  = Some ("Bearer " +:+ py_format repr (access_token self)).
Proof.
  intros T. unfold _get_headers. rewrite T.
  apply lookup_union_Some_l. apply lookup_insert_eq.
Qed.

Lemma get_headers_falsy (self : AccountingApiClient)
    (sh : gmap string string) :
  truthy (access_token self) = false ->
  _get_headers repr self ∪ sh = sh.
Proof.
  intros T. unfold _get_headers. rewrite T. apply (left_id_L ∅ (∪)).
Qed.

Lemma truthy_str (a : string) : a <> EmptyString -> truthy (JStr a) = true.
Proof.
  intros Ha. cbn. destruct (String.eqb_spec a EmptyString); [contradiction|reflexivity].
Qed.

End Headers.

(** The constructor's session holds no [Authorization] entry, and no method
    touches the session or the base URL. *)
Lemma init_session_no_authorization (user_agent accept_encoding base : string) :
  session_headers (session (__init__ user_agent accept_encoding base))
    !! "Authorization" = None.
Proof. reflexivity. Qed.

Lemma invoke_keeps_session (repr : value -> string) (server : Request -> Reply)
    (c : Call) (self : AccountingApiClient) :
  session (client_after (exec server (invoke repr c self))) = session self
  /\ base_url (client_after (exec server (invoke repr c self))) = base_url self.
Proof.
  destruct (is_auth_call c) eqn:K.
  - destruct (auth_call_shape repr server c self K)
      as [(_ & _ & ->) | (rq & _ & H & _)]; [split; reflexivity|].
    unfold client_after.
    destruct (exec server (invoke repr c self)) as [[o s] t]. cbn in *.
    unfold after_reply in H.
    destruct (server rq) as [r|w]; [|injection H as _ ->; split; reflexivity].
    destruct (_handle_response r) as [v|e];
      [|injection H as _ ->; split; reflexivity].
    destruct (getitem v "accessToken") as [a|e];
      [|injection H as _ ->; split; reflexivity].
    destruct (getitem v "refreshToken") as [b|e];
      injection H as _ ->; split; reflexivity.
  - destruct (resource_call_shape repr server c self K) as (rq & _ & ->).
    split; reflexivity.
Qed.

(** A response the checkpoint rejects: the call raises what the checkpoint
    raises, and the client is as before. *)
Lemma checkpoint_raise_propagates (repr : value -> string)
    (server : Request -> Reply) (c : Call) (self : AccountingApiClient)
    (rq : Request) (r : Response) (e : exn) :
  In (rq, Responded r) (exchanges (exec server (invoke repr c self))) ->
  _handle_response r = Raised e ->
  exec server (invoke repr c self) = (Raised e, self, [(rq, Responded r)]).
Proof.
  intros Hin Hh. destruct (is_auth_call c) eqn:K.
  - destruct (auth_call_shape repr server c self K)
      as [(_ & _ & E) | (rq' & _ & H & E)].
    + rewrite E in Hin. destruct Hin.
    + rewrite E in Hin. destruct Hin as [[= <- Hr]|[]].
      unfold exchanges in E.
      destruct (exec server (invoke repr c self)) as [x t]. cbn in *.
      unfold after_reply in H. rewrite Hr, Hh in H. subst x t.
      now rewrite Hr.
  - destruct (resource_call_shape repr server c self K) as (rq' & _ & E).
    rewrite E in Hin |- *. destruct Hin as [[= <- Hr]|[]].
    now rewrite Hr, Hh.
Qed.

(** ** The claims *)

Section Claims.
Variable repr : value -> string.
Variable server : Request -> Reply.

(** C1. When the reply to [login] is a 2xx response whose JSON body is an
    object with keys "accessToken" and "refreshToken", [login] has sent one
    POST to [base_url + "/auth/login"] with the credentials as the JSON body,
    stores the two values of the body in [access_token] and [refresh_token],
    and returns the decoded body as it is. *)
Theorem login_stores_tokens_returns_body
    (self : AccountingApiClient) (email password organization_id : string)
    (r : Response) (body : gmap string value) (a b : value) :
  let rq :=
    {| method := POST;
       url := base_url self +:+ "/auth/login";
       headers := session_headers (session self);
       params := [];
       json := JObj {[ "email" := JStr email;
                       "password" := JStr password;
                       "organizationId" := JStr organization_id ]} |} in
  server rq = Responded r ->
  200 <= status_code r < 300 ->
  decoded r = Some (JObj body) ->
  body !! "accessToken" = Some a ->
  body !! "refreshToken" = Some b ->
  exec server (login email password organization_id self)
  = (Returned (JObj body),
     {| base_url := base_url self;
        access_token := a;
        refresh_token := b;
        session := session self |},
     [(rq, Responded r)])
  /\ access_token
       (client_after (exec server (login email password organization_id self)))
     = a
  /\ refresh_token
       (client_after (exec server (login email password organization_id self)))
     = b.
Proof.
  intros rq Hrq H2 Hbody Ha Hb.
  assert (E : exec server (login email password organization_id self)
              = (Returned (JObj body),
                 {| base_url := base_url self; access_token := a;
                    refresh_token := b; session := session self |},
                 [(rq, Responded r)])).
  { run_method. fold rq. rewrite Hrq.
    rewrite (handle_response_2xx r (JObj body) H2 Hbody).
    cbn. rewrite Ha. cbn. rewrite Hb. reflexivity. }
  rewrite E. repeat split.
Qed.

(** C2 (amended). Each of the five resource methods performs exactly one
    exchange; when [access_token] holds a non-empty string [a] the request
    carries [Authorization: Bearer a]; when [access_token] is [None] (and the
    session's own headers hold no such entry, as the constructor leaves
    them) the request carries no [Authorization] header, and is issued all
    the same. *)
Theorem resource_call_bearer_header (c : Call) (self : AccountingApiClient) :
  is_auth_call c = false ->
  exists rq : Request,
    exchanges (exec server (invoke repr c self)) = [(rq, server rq)]
    /\ (forall a : string,
          access_token self = JStr a -> a <> EmptyString ->
          headers rq !! "Authorization" = Some ("Bearer " +:+ a))
    /\ (access_token self = JNull ->
        session_headers (session self) !! "Authorization" = None ->
        headers rq !! "Authorization" = None).
Proof.
  intros K. destruct (resource_call_shape repr server c self K) as (rq & Hh & ->).
  exists rq. split; [reflexivity|]. rewrite Hh. split.
  - intros a Ha Hne.
    rewrite get_headers_truthy by (rewrite Ha; now apply truthy_str).
    now rewrite Ha.
  - intros Hnone Hs. rewrite get_headers_falsy by now rewrite Hnone.
    exact Hs.
Qed.

(** C3. Whatever the method, when the response it receives has status 401
    the call raises the exception "Authentication failed. Please login
    again.", whatever the body. *)
Theorem status_401_raises_authentication_failed
    (c : Call) (self : AccountingApiClient) (rq : Request) (r : Response) :
  In (rq, Responded r) (exchanges (exec server (invoke repr c self))) ->
  status_code r = 401 ->
  result_of (exec server (invoke repr c self))
  = Raised (Exception "Authentication failed. Please login again.").
Proof.
  intros Hin H401.
  now rewrite (checkpoint_raise_propagates repr server c self rq r _ Hin
                 (handle_response_401 r H401)).
Qed.

(** C4 (amended). Whatever the method, when the response it receives has a
    status from 400 to 599 other than 401, the call raises [HTTPError]
    carrying the response (status code and body); nothing is returned. *)
Theorem status_4xx_5xx_raises_http_error
    (c : Call) (self : AccountingApiClient) (rq : Request) (r : Response) :
  In (rq, Responded r) (exchanges (exec server (invoke repr c self))) ->
  400 <= status_code r < 600 ->
  status_code r <> 401 ->
  result_of (exec server (invoke repr c self)) = Raised (HTTPError r).
Proof.
  intros Hin Hrange Hne.
  now rewrite (checkpoint_raise_propagates repr server c self rq r _ Hin
                 (handle_response_http_error r Hrange Hne)).
Qed.

(** C5. With no refresh token held, [refresh_access_token] raises "No
    refresh token available" without any exchange and leaves the client as
    it was. *)
Theorem refresh_without_token_raises_locally (self : AccountingApiClient) :
  refresh_token self = JNull ->
  exec server (refresh_access_token self)
  = (Raised (Exception "No refresh token available"), self, []).
Proof.
  intros H. run_method. rewrite H. reflexivity.
Qed.

(** C6 (amended). [login] and [refresh_access_token] pass no headers of their
    own: their request carries the session's headers only, whatever
    [access_token] holds.  The five resource methods attach
    [Authorization: Bearer <token>] whenever [access_token] is truthy. *)
Theorem authorization_header_by_method
    (c : Call) (self : AccountingApiClient) (rq : Request) (rep : Reply) :
  In (rq, rep) (exchanges (exec server (invoke repr c self))) ->
  if is_auth_call c
  then headers rq = session_headers (session self)
  else truthy (access_token self) = true ->
       headers rq !! "Authorization"
       = Some ("Bearer " +:+ py_format repr (access_token self)).
Proof.
  intros Hin. destruct (is_auth_call c) eqn:K.
  - destruct (auth_call_shape repr server c self K)
      as [(_ & _ & E) | (rq' & Hh & _ & E)];
      rewrite E in Hin; [destruct Hin|].
    now destruct Hin as [[= <- _]|[]].
  - destruct (resource_call_shape repr server c self K) as (rq' & Hh & E).
    rewrite E in Hin. destruct Hin as [[= <- _]|[]].
    intros T. rewrite Hh. now apply get_headers_truthy.
Qed.

(** C7. [get_customers] performs exactly one exchange, a GET of
    [base_url + "/customers"] with the keyword arguments as they were given
    as the query parameters; on a 2xx response with a JSON body it returns
    that body as decoded. *)
Theorem get_customers_one_get_returns_body
    (self : AccountingApiClient) (ps : list (string * value)) :
  let rq :=
    {| method := GET;
       url := base_url self +:+ "/customers";
       headers := _get_headers repr self ∪ session_headers (session self);
       params := ps;
       json := JNull |} in
  exchanges (exec server (get_customers repr ps self)) = [(rq, server rq)]
  /\ forall (r : Response) (body : value),
       server rq = Responded r ->
       200 <= status_code r < 300 ->
       decoded r = Some body ->
       result_of (exec server (get_customers repr ps self)) = Returned body.
Proof.
  intros rq. run_method. fold rq. unfold exchanges, result_of.
  destruct (server rq) as [r|w]; (split; [reflexivity|]).
  - intros r' body [= <-] H2 Hbody. cbn.
    apply (handle_response_2xx r body H2 Hbody).
  - discriminate.
Qed.

(** C8. A call of one of the five resource methods leaves the client object
    as it was, whatever the reply: base URL, access token, refresh token
    (and session). *)
Theorem resource_call_keeps_client (c : Call) (self : AccountingApiClient) :
  is_auth_call c = false ->
  client_after (exec server (invoke repr c self)) = self.
Proof.
  intros K. now destruct (resource_call_shape repr server c self K) as (rq & _ & ->).
Qed.

(** C9. When [login] or [refresh_access_token] ends with the exception of
    the 401 branch or with an [HTTPError], the client object, and so both
    tokens, are what they were before the call. *)
Theorem failed_token_call_keeps_client
    (c : Call) (self : AccountingApiClient) (e : exn) :
  is_auth_call c = true ->
  result_of (exec server (invoke repr c self)) = Raised e ->
  (e = Exception "Authentication failed. Please login again."
   \/ exists r : Response, e = HTTPError r) ->
  client_after (exec server (invoke repr c self)) = self.
Proof.
  intros K Hres He.
  destruct (auth_call_shape repr server c self K)
    as [(_ & _ & ->) | (rq & _ & H & _)]; [reflexivity|].
  unfold result_of in Hres. unfold client_after.
  destruct (exec server (invoke repr c self)) as [[o s] t]. cbn in *.
  unfold after_reply in H.
  destruct (server rq) as [r|w]; [|now injection H as _ ->].
  destruct (_handle_response r) as [v|e0]; [|now injection H as _ ->].
  destruct (getitem v "accessToken") as [a|e0]; [|now injection H as _ ->].
  destruct (getitem v "refreshToken") as [b|e0] eqn:Hb;
    injection H as -> ->; [discriminate|].
  injection Hres as ->. apply getitem_raised in Hb.
  destruct He as [->|[r' ->]], Hb; discriminate.
Qed.

(** C10. When the response to [login] or [refresh_access_token] is 2xx and
    its JSON body is an object with "accessToken" but without
    "refreshToken", the call raises [KeyError] for "refreshToken" after it
    has stored the new access token: the refresh token is the old one. *)
Theorem missing_refresh_token_half_update
    (c : Call) (self : AccountingApiClient) (rq : Request) (r : Response)
    (body : gmap string value) (a : value) :
  is_auth_call c = true ->
  In (rq, Responded r) (exchanges (exec server (invoke repr c self))) ->
  200 <= status_code r < 300 ->
  decoded r = Some (JObj body) ->
  body !! "accessToken" = Some a ->
  body !! "refreshToken" = None ->
  result_of (exec server (invoke repr c self)) = Raised (KeyError "refreshToken")
  /\ client_after (exec server (invoke repr c self)) = with_access_token a self
  /\ access_token (client_after (exec server (invoke repr c self))) = a
  /\ refresh_token (client_after (exec server (invoke repr c self)))
     = refresh_token self.
Proof.
  intros K Hin H2 Hbody Ha Hb.
  destruct (auth_call_shape repr server c self K)
    as [(_ & _ & E) | (rq' & _ & H & E)];
    rewrite E in Hin; [destruct Hin|].
  destruct Hin as [[= <- Hr]|[]].
  unfold result_of, client_after.
  destruct (exec server (invoke repr c self)) as [[o s] t]. cbn in *.
  unfold after_reply in H.
  rewrite Hr, (handle_response_2xx r (JObj body) H2 Hbody) in H.
  cbn in H. rewrite Ha, Hb in H. injection H as -> ->. auto.
Qed.

End Claims.

(** ** The claims on concrete runs *)

Lemma login_stores_tokens_returns_body_example :
  exec (answer 200 login_text (Some (JObj login_body)))
    (login "admin@example.com" "SecurePassword123!"
       "550e8400-e29b-41d4-a716-446655440000" example_client)
  = (Returned (JObj login_body),
     {| base_url := "http://localhost:3000/api/v1";
        access_token := JStr "a";
        refresh_token := JStr "b";
        session := session example_client |},
     [({| method := POST;
          url := "http://localhost:3000/api/v1/auth/login";
          headers := session_headers (session example_client);
          params := [];
          json := JObj {[ "email" := JStr "admin@example.com";
                          "password" := JStr "SecurePassword123!";
                          "organizationId" :=
                            JStr "550e8400-e29b-41d4-a716-446655440000" ]} |},
       Responded {| status_code := 200; content := login_text;
                    decoded := Some (JObj login_body) |})])
  /\ access_token
       (client_after
          (exec (answer 200 login_text (Some (JObj login_body)))
             (login "admin@example.com" "SecurePassword123!"
                "550e8400-e29b-41d4-a716-446655440000" example_client)))
     = JStr "a"
  /\ refresh_token
       (client_after
          (exec (answer 200 login_text (Some (JObj login_body)))
             (login "admin@example.com" "SecurePassword123!"
                "550e8400-e29b-41d4-a716-446655440000" example_client)))
     = JStr "b".
Proof.
  apply (login_stores_tokens_returns_body
           (answer 200 login_text (Some (JObj login_body))) example_client
           "admin@example.com" "SecurePassword123!"
           "550e8400-e29b-41d4-a716-446655440000"
           {| status_code := 200; content := login_text;
              decoded := Some (JObj login_body) |}
           login_body (JStr "a") (JStr "b")).
  - reflexivity.
  - cbn. lia.
  - reflexivity.
  - reflexivity.
  - reflexivity.
Defined.

Lemma resource_call_bearer_header_example :
  (exists rq : Request,
     exchanges
       (exec (answer 200 customers_text (Some customers_page))
          (invoke example_repr (GetCustomers page_params)
             (client_after
                (exec (answer 200 login_text (Some (JObj login_body)))
                   (login "admin@example.com" "SecurePassword123!"
                      "550e8400-e29b-41d4-a716-446655440000" example_client)))))
     = [(rq, answer 200 customers_text (Some customers_page) rq)]
     /\ headers rq !! "Authorization" = Some "Bearer a")
  /\ (exists rq : Request,
        exchanges (exec (answer 401 expired_text None)
                     (invoke example_repr (GetCustomers page_params) example_client))
        = [(rq, answer 401 expired_text None rq)]
        /\ headers rq !! "Authorization" = None).
Proof.
  split.
  - destruct (resource_call_bearer_header example_repr
                (answer 200 customers_text (Some customers_page))
                (GetCustomers page_params)
                (client_after
                   (exec (answer 200 login_text (Some (JObj login_body)))
                      (login "admin@example.com" "SecurePassword123!"
                         "550e8400-e29b-41d4-a716-446655440000" example_client)))
                eq_refl)
      as (rq & E & Hbearer & _).
    exists rq. split; [exact E|].
    apply (Hbearer "a"); [reflexivity | discriminate].
  - destruct (resource_call_bearer_header example_repr
                (answer 401 expired_text None)
                (GetCustomers page_params) example_client eq_refl)
      as (rq & E & _ & Hnone).
    exists rq. split; [exact E|].
    apply Hnone; reflexivity.
Defined.

Lemma status_401_raises_authentication_failed_example :
  result_of (exec (answer 401 expired_text
                     (Some (JObj {[ "error" := JStr "expired" ]})))
               (invoke example_repr (GetCustomer "42") logged_in_client))
  = Raised (Exception "Authentication failed. Please login again.").
Proof.
  eapply (status_401_raises_authentication_failed example_repr
            (answer 401 expired_text
               (Some (JObj {[ "error" := JStr "expired" ]})))
            (GetCustomer "42") logged_in_client).
  - left. reflexivity.
  - reflexivity.
Defined.

Lemma status_4xx_5xx_raises_http_error_example :
  result_of (exec (answer 500 "Internal Server Error" None)
               (invoke example_repr (CreateInvoice (JObj ∅)) logged_in_client))
  = Raised (HTTPError {| status_code := 500;
                         content := "Internal Server Error";
                         decoded := None |}).
Proof.
  eapply (status_4xx_5xx_raises_http_error example_repr
            (answer 500 "Internal Server Error" None)
            (CreateInvoice (JObj ∅)) logged_in_client).
  - left. reflexivity.
  - cbn. lia.
  - cbn. lia.
Defined.

Lemma refresh_without_token_raises_locally_example :
  exec (answer 200 login_text (Some (JObj login_body)))
    (refresh_access_token example_client)
  = (Raised (Exception "No refresh token available"), example_client, []).
Proof.
  apply (refresh_without_token_raises_locally
           (answer 200 login_text (Some (JObj login_body))) example_client).
  reflexivity.
Defined.

Lemma authorization_header_by_method_example :
  headers
    {| method := GET;
       url := "http://localhost:3000/api/v1/invoices";
       headers := _get_headers example_repr logged_in_client
                  ∪ session_headers (session logged_in_client);
       params := page_params;
       json := JNull |} !! "Authorization"
  = Some "Bearer a".
Proof.
  apply (authorization_header_by_method example_repr
           (answer 200 customers_text (Some customers_page))
           (GetInvoices page_params) logged_in_client
           {| method := GET;
              url := "http://localhost:3000/api/v1/invoices";
              headers := _get_headers example_repr logged_in_client
                         ∪ session_headers (session logged_in_client);
              params := page_params;
              json := JNull |}
           (Responded {| status_code := 200; content := customers_text;
                         decoded := Some customers_page |})).
  - left. reflexivity.
  - reflexivity.
Defined.

Lemma get_customers_one_get_returns_body_example :
  result_of (exec (answer 200 customers_text (Some customers_page))
               (get_customers example_repr page_params logged_in_client))
  = Returned customers_page.
Proof.
  apply (proj2 (get_customers_one_get_returns_body example_repr
                  (answer 200 customers_text (Some customers_page))
                  logged_in_client page_params)
           {| status_code := 200; content := customers_text;
              decoded := Some customers_page |} customers_page).
  - reflexivity.
  - cbn. lia.
  - reflexivity.
Defined.

Lemma resource_call_keeps_client_example :
  client_after (exec (answer 401 expired_text None)
                  (invoke example_repr (CreateCustomer (JObj ∅)) logged_in_client))
  = logged_in_client.
Proof.
  apply (resource_call_keeps_client example_repr (answer 401 expired_text None)
           (CreateCustomer (JObj ∅)) logged_in_client).
  reflexivity.
Defined.

Lemma failed_token_call_keeps_client_example :
  client_after (exec (answer 401 expired_text None)
                  (invoke example_repr RefreshAccessToken logged_in_client))
  = logged_in_client.
Proof.
  apply (failed_token_call_keeps_client example_repr
           (answer 401 expired_text None) RefreshAccessToken logged_in_client
           (Exception "Authentication failed. Please login again.")).
  - reflexivity.
  - reflexivity.
  - left. reflexivity.
Defined.

Lemma missing_refresh_token_half_update_example :
  result_of (exec (answer 200 (object_text [("accessToken", quote "a2")])
                     (Some (JObj access_only_body)))
               (invoke example_repr RefreshAccessToken logged_in_client))
  = Raised (KeyError "refreshToken")
  /\ client_after (exec (answer 200 (object_text [("accessToken", quote "a2")])
                       (Some (JObj access_only_body)))
                    (invoke example_repr RefreshAccessToken logged_in_client))
     = with_access_token (JStr "a2") logged_in_client
  /\ access_token
       (client_after (exec (answer 200 (object_text [("accessToken", quote "a2")])
                              (Some (JObj access_only_body)))
                        (invoke example_repr RefreshAccessToken logged_in_client)))
     = JStr "a2"
  /\ refresh_token
       (client_after (exec (answer 200 (object_text [("accessToken", quote "a2")])
                              (Some (JObj access_only_body)))
                        (invoke example_repr RefreshAccessToken logged_in_client)))
     = refresh_token logged_in_client.
Proof.
  eapply (missing_refresh_token_half_update example_repr
            (answer 200 (object_text [("accessToken", quote "a2")])
               (Some (JObj access_only_body)))
            RefreshAccessToken logged_in_client _ _ access_only_body (JStr "a2")).
  - reflexivity.
  - left. reflexivity.
  - cbn. lia.
  - reflexivity.
  - reflexivity.
  - reflexivity.
Defined.

(** ** Where the code departs from the specification's wording *)

(** C2 as stated fails for the token [""]: a client whose [access_token] is
    the empty string sends its request without any [Authorization] header,
    not with [Authorization: Bearer ]. *)
Lemma empty_token_sends_no_authorization :
  access_token empty_token_client = JStr EmptyString
  /\ map (fun x : Request * Reply => headers (fst x) !! "Authorization")
       (exchanges (exec (answer 200 customers_text (Some customers_page))
                     (invoke example_repr (GetCustomers page_params)
                        empty_token_client)))
     = [None].
Proof. split; reflexivity. Qed.

(** C4 as stated fails for 3xx: a 304 passes the checkpoint, so with a body
    that is not JSON the call raises the decoder's error, not [HTTPError],
    and a 301 that the library hands back with a JSON body is returned as a
    value. *)
Lemma status_3xx_is_not_an_http_error :
  result_of (exec (answer 304 EmptyString None)
               (invoke example_repr (GetCustomers page_params) logged_in_client))
  = Raised (JSONDecodeError {| status_code := 304; content := EmptyString;
                               decoded := None |})
  /\ result_of (exec (answer 301 customers_text (Some customers_page))
                  (invoke example_repr (GetCustomers page_params)
                     logged_in_client))
     = Returned customers_page.
Proof. split; reflexivity. Qed.

(** C6 as stated fails for the two token methods: with an access token held,
    neither [login] nor [refresh_access_token] sends an [Authorization]
    header. *)
Lemma token_calls_send_no_authorization :
  truthy (access_token logged_in_client) = true
  /\ map (fun x : Request * Reply => headers (fst x) !! "Authorization")
       (exchanges (exec (answer 200 login_text (Some (JObj login_body)))
                     (invoke example_repr
                        (Login "admin@example.com" "SecurePassword123!"
                           "550e8400-e29b-41d4-a716-446655440000")
                        logged_in_client)))
     = [None]
  /\ map (fun x : Request * Reply => headers (fst x) !! "Authorization")
       (exchanges (exec (answer 200 login_text (Some (JObj login_body)))
                     (invoke example_repr RefreshAccessToken logged_in_client)))
     = [None].
Proof. repeat split; reflexivity. Qed.

(** * Further properties of the client *)

Section Client.
Variable repr : value -> string.
Variable server : Request -> Reply.

(** [refresh_access_token] with a refresh token held: one POST of
    [{"refreshToken": <the token held>}] to [base_url + "/auth/refresh"]
    without headers of the call's own; on a 2xx reply whose body is an object
    with both keys, both tokens are replaced by the body's and the body is
    returned. *)
Theorem refresh_replaces_both_tokens
    (self : AccountingApiClient) (r : Response) (body : gmap string value)
    (a b : value) :
  let rq :=
    {| method := POST;
       url := base_url self +:+ "/auth/refresh";
       headers := session_headers (session self);
       params := [];
       json := JObj {[ "refreshToken" := refresh_token self ]} |} in
  truthy (refresh_token self) = true ->
  server rq = Responded r ->
  200 <= status_code r < 300 ->
  decoded r = Some (JObj body) ->
  body !! "accessToken" = Some a ->
  body !! "refreshToken" = Some b ->
  exec server (refresh_access_token self)
  = (Returned (JObj body),
     {| base_url := base_url self;
        access_token := a;
        refresh_token := b;
        session := session self |},
     [(rq, Responded r)])
  /\ access_token (client_after (exec server (refresh_access_token self))) = a
  /\ refresh_token (client_after (exec server (refresh_access_token self))) = b.
Proof.
  intros rq T Hrq H2 Hbody Ha Hb.
  assert (E : exec server (refresh_access_token self)
              = (Returned (JObj body),
                 {| base_url := base_url self; access_token := a;
                    refresh_token := b; session := session self |},
                 [(rq, Responded r)])).
  { run_method. rewrite T. cbn [negb]. fold rq. rewrite Hrq.
    rewrite (handle_response_2xx r (JObj body) H2 Hbody).
    cbn. rewrite Ha. cbn. rewrite Hb. reflexivity. }
  rewrite E. repeat split.
Qed.

(** The guard of [refresh_access_token] is a truth test: not only [None] but
    every falsy refresh token (the empty string, 0, an empty list, ...) makes
    the call raise "No refresh token available" with no exchange and the
    client untouched. *)
Theorem refresh_with_falsy_token_raises_locally (self : AccountingApiClient) :
  truthy (refresh_token self) = false ->
  exec server (refresh_access_token self)
  = (Raised (Exception "No refresh token available"), self, []).
Proof.
  intros T. run_method. now rewrite T.
Qed.

(** A call performs at most one exchange, and none only when it is
    [refresh_access_token] on a falsy refresh token: nothing is retried and
    nothing is skipped. *)
Theorem call_performs_one_exchange (c : Call) (self : AccountingApiClient) :
  (length (exchanges (exec server (invoke repr c self))) <= 1)%nat
  /\ (exchanges (exec server (invoke repr c self)) = []
      <-> c = RefreshAccessToken /\ truthy (refresh_token self) = false).
Proof.
  destruct (is_auth_call c) eqn:K.
  - destruct (auth_call_shape repr server c self K)
      as [(-> & T & E) | (rq & _ & _ & E)]; rewrite E.
    + split; [cbn; lia|]. now split.
    + split; [cbn; lia|]. split; [discriminate|].
      intros [-> T]. exfalso. revert E. run_method. now rewrite T.
  - destruct (resource_call_shape repr server c self K) as (rq & _ & E).
    rewrite E. split; [cbn; lia|]. split; [discriminate|].
    intros [-> _]. discriminate.
Qed.

(** A failure of the session call itself (no response at all) leaves every
    method with that exception and the client as it was. *)
Theorem transport_failure_propagates
    (c : Call) (self : AccountingApiClient) (rq : Request) (what : string) :
  In (rq, Failed what) (exchanges (exec server (invoke repr c self))) ->
  exec server (invoke repr c self)
  = (Raised (RequestException what), self, [(rq, Failed what)]).
Proof.
  intros Hin. destruct (is_auth_call c) eqn:K.
  - destruct (auth_call_shape repr server c self K)
      as [(_ & _ & E) | (rq' & _ & H & E)].
    + rewrite E in Hin. destruct Hin.
    + rewrite E in Hin. destruct Hin as [[= <- Hr]|[]].
      unfold exchanges in E.
      destruct (exec server (invoke repr c self)) as [x t]. cbn in *.
      unfold after_reply in H. rewrite Hr in H. subst x t. now rewrite Hr.
  - destruct (resource_call_shape repr server c self K) as (rq' & _ & E).
    rewrite E in Hin |- *. destruct Hin as [[= <- Hr]|[]].
    now rewrite Hr.
Qed.

(** A response that passes the status checks but whose body is not JSON (an
    empty 204, an HTML page) makes every method raise the decoder's error;
    the client is as it was. *)
Theorem non_json_body_raises_decode_error
    (c : Call) (self : AccountingApiClient) (rq : Request) (r : Response) :
  In (rq, Responded r) (exchanges (exec server (invoke repr c self))) ->
  status_code r <> 401 ->
  ~ 400 <= status_code r < 600 ->
  decoded r = None ->
  exec server (invoke repr c self)
  = (Raised (JSONDecodeError r), self, [(rq, Responded r)]).
Proof.
  intros Hin Hne Hout Hnone.
  apply checkpoint_raise_propagates; [exact Hin|].
  rewrite handle_response_other by assumption.
  unfold response_json. now rewrite Hnone.
Qed.

(** [login] and [refresh_access_token] on an accepted response whose body is
    an object without "accessToken": [KeyError] for that key, and neither
    token is touched, even if the body has a "refreshToken". *)
Theorem missing_access_token_stores_nothing
    (c : Call) (self : AccountingApiClient) (rq : Request) (r : Response)
    (body : gmap string value) :
  is_auth_call c = true ->
  In (rq, Responded r) (exchanges (exec server (invoke repr c self))) ->
  200 <= status_code r < 300 ->
  decoded r = Some (JObj body) ->
  body !! "accessToken" = None ->
  exec server (invoke repr c self)
  = (Raised (KeyError "accessToken"), self, [(rq, Responded r)]).
Proof.
  intros K Hin H2 Hbody Ha.
  destruct (auth_call_shape repr server c self K)
    as [(_ & _ & E) | (rq' & _ & H & E)];
    rewrite E in Hin; [destruct Hin|].
  destruct Hin as [[= <- Hr]|[]]. unfold exchanges in E.
  destruct (exec server (invoke repr c self)) as [x t]. cbn in *.
  unfold after_reply in H.
  rewrite Hr, (handle_response_2xx r (JObj body) H2 Hbody) in H.
  cbn in H. rewrite Ha in H. subst x t. now rewrite Hr.
Qed.

(** The same calls on an accepted response whose JSON body is not an object
    (a list, a string, a number, null): [TypeError] from the first indexing,
    and neither token is touched. *)
Theorem non_object_body_stores_nothing
    (c : Call) (self : AccountingApiClient) (rq : Request) (r : Response)
    (v : value) :
  is_auth_call c = true ->
  In (rq, Responded r) (exchanges (exec server (invoke repr c self))) ->
  200 <= status_code r < 300 ->
  decoded r = Some v ->
  (forall m : gmap string value, v <> JObj m) ->
  exec server (invoke repr c self)
  = (Raised (TypeError v), self, [(rq, Responded r)]).
Proof.
  intros K Hin H2 Hbody Hv.
  destruct (auth_call_shape repr server c self K)
    as [(_ & _ & E) | (rq' & _ & H & E)];
    rewrite E in Hin; [destruct Hin|].
  destruct Hin as [[= <- Hr]|[]]. unfold exchanges in E.
  destruct (exec server (invoke repr c self)) as [x t]. cbn in *.
  unfold after_reply in H.
  rewrite Hr, (handle_response_2xx r v H2 Hbody) in H.
  destruct v; try (cbn in H; subst x t; now rewrite Hr).
  now destruct (Hv m).
Qed.

(** What holds when a token method returns. *)
Lemma token_call_postcondition
    (c : Call) (self : AccountingApiClient) (v : value) :
  is_auth_call c = true ->
  result_of (exec server (invoke repr c self)) = Returned v ->
  getitem v "accessToken"
  = Returned (access_token (client_after (exec server (invoke repr c self))))
  /\ getitem v "refreshToken"
     = Returned (refresh_token (client_after (exec server (invoke repr c self))))
  /\ base_url (client_after (exec server (invoke repr c self))) = base_url self
  /\ session (client_after (exec server (invoke repr c self))) = session self.
Proof.
  intros K Hres.
  destruct (auth_call_shape repr server c self K)
    as [(_ & _ & E) | (rq & _ & H & _)].
  - rewrite E in Hres. discriminate.
  - unfold result_of in Hres. unfold client_after.
    destruct (exec server (invoke repr c self)) as [[o s] t]. cbn in *.
    subst o. unfold after_reply in H.
    destruct (server rq) as [r|w]; [|discriminate].
    destruct (_handle_response r) as [v0|e]; [|discriminate].
    destruct (getitem v0 "accessToken") as [a|e] eqn:Ha; [|discriminate].
    destruct (getitem v0 "refreshToken") as [b|e] eqn:Hb; [|discriminate].
    injection H as -> ->. rewrite Ha, Hb. auto.
Qed.

(** When [login] or [refresh_access_token] returns, the tokens held are the
    entries of the returned body, and base URL and session are as before: a
    call that returns has never stored half a pair. *)
Theorem returned_body_gives_both_tokens
    (c : Call) (self : AccountingApiClient) (v : value) :
  is_auth_call c = true ->
  result_of (exec server (invoke repr c self)) = Returned v ->
  getitem v "accessToken"
  = Returned (access_token (client_after (exec server (invoke repr c self))))
  /\ getitem v "refreshToken"
     = Returned (refresh_token (client_after (exec server (invoke repr c self))))
  /\ base_url (client_after (exec server (invoke repr c self))) = base_url self
  /\ session (client_after (exec server (invoke repr c self))) = session self.
Proof. exact (token_call_postcondition c self v). Qed.

(** A value comes back from a method only as the decoded body of the one
    response received, and only when that response is not a 401 and not in
    400-599: no method makes up or alters a result. *)
Theorem returned_value_is_decoded_body
    (c : Call) (self : AccountingApiClient) (v : value) :
  result_of (exec server (invoke repr c self)) = Returned v ->
  exists (rq : Request) (r : Response),
    exchanges (exec server (invoke repr c self)) = [(rq, Responded r)]
    /\ decoded r = Some v
    /\ status_code r <> 401
    /\ ~ 400 <= status_code r < 600.
Proof.
  assert (accepted : forall r : Response,
            _handle_response r = Returned v ->
            decoded r = Some v /\ status_code r <> 401
            /\ ~ 400 <= status_code r < 600).
  { intros r Hr.
    destruct (Z.eq_dec (status_code r) 401) as [E|Hne];
      [now rewrite handle_response_401 in Hr|].
    assert (Hout : ~ 400 <= status_code r < 600)
      by (intros Hin; now rewrite handle_response_http_error in Hr).
    rewrite handle_response_other in Hr by assumption.
    unfold response_json in Hr.
    destruct (decoded r); [|discriminate]. now injection Hr as ->. }
  intros Hres. destruct (is_auth_call c) eqn:K.
  - destruct (auth_call_shape repr server c self K)
      as [(_ & _ & E) | (rq & _ & H & E)].
    + rewrite E in Hres. discriminate.
    + unfold result_of in Hres. rewrite E.
      destruct (exec server (invoke repr c self)) as [[o s] t]. cbn in *.
      subst o. unfold after_reply in H.
      destruct (server rq) as [r|w]; [|discriminate].
      exists rq, r. split; [reflexivity|]. apply accepted.
      destruct (_handle_response r) as [v0|e]; [|discriminate].
      destruct (getitem v0 "accessToken") as [a|e]; [|discriminate].
      destruct (getitem v0 "refreshToken") as [b|e]; [|discriminate].
      now injection H as -> _.
  - destruct (resource_call_shape repr server c self K) as (rq & _ & E).
    rewrite E in Hres |- *. unfold result_of in Hres. cbn in Hres.
    destruct (server rq) as [r|w]; [|discriminate].
    exists rq, r. split; [reflexivity|]. now apply accepted.
Qed.

(** An [HTTPError] that leaves a method carries the very response the method
    received, and that response has a status in 400-599 other than 401. *)
Theorem http_error_carries_received_response
    (c : Call) (self : AccountingApiClient) (r : Response) :
  result_of (exec server (invoke repr c self)) = Raised (HTTPError r) ->
  (exists rq : Request,
     exchanges (exec server (invoke repr c self)) = [(rq, Responded r)])
  /\ 400 <= status_code r < 600
  /\ status_code r <> 401
  /\ client_after (exec server (invoke repr c self)) = self.
Proof.
  assert (rejected : forall r0 : Response,
            _handle_response r0 = Raised (HTTPError r) ->
            r0 = r /\ 400 <= status_code r < 600 /\ status_code r <> 401).
  { intros r0 Hr. apply handle_response_raised in Hr.
    destruct Hr as [(_ & [=]) | [(Hin & Hne & [= ->]) | (_ & _ & [=])]].
    auto. }
  intros Hres. destruct (is_auth_call c) eqn:K.
  - destruct (auth_call_shape repr server c self K)
      as [(_ & _ & E) | (rq & _ & H & E)].
    + rewrite E in Hres. discriminate.
    + unfold result_of in Hres. unfold client_after. rewrite E.
      destruct (exec server (invoke repr c self)) as [[o s] t]. cbn in *.
      subst o. unfold after_reply in H.
      destruct (server rq) as [r0|w]; [|discriminate].
      destruct (_handle_response r0) as [v0|e] eqn:Hh.
      * destruct (getitem v0 "accessToken") as [a|e] eqn:Ha.
        -- destruct (getitem v0 "refreshToken") as [b|e] eqn:Hb;
             [discriminate|].
           injection H as <- _. apply getitem_raised in Hb.
           destruct Hb; discriminate.
        -- injection H as <- _. apply getitem_raised in Ha.
           destruct Ha; discriminate.
      * injection H as <- ->. destruct (rejected r0 Hh) as (-> & ? & ?).
        eauto.
  - destruct (resource_call_shape repr server c self K) as (rq & _ & E).
    rewrite E in Hres |- *. unfold result_of in Hres. cbn in Hres.
    destruct (server rq) as [r0|w]; [|discriminate].
    destruct (rejected r0 Hres) as (-> & ? & ?). eauto.
Qed.

(** The exception "Authentication failed. Please login again." leaves a
    method only when the response received has status 401; the client is as
    it was. *)
Theorem authentication_failed_means_401
    (c : Call) (self : AccountingApiClient) :
  result_of (exec server (invoke repr c self))
  = Raised (Exception "Authentication failed. Please login again.") ->
  exists (rq : Request) (r : Response),
    exec server (invoke repr c self)
    = (Raised (Exception "Authentication failed. Please login again."),
       self, [(rq, Responded r)])
    /\ status_code r = 401.
Proof.
  assert (rejected : forall r0 : Response,
            _handle_response r0 = Raised auth_failed -> status_code r0 = 401).
  { intros r0 Hr. apply handle_response_raised in Hr.
    destruct Hr as [(H & _) | [(_ & _ & [=]) | (_ & _ & [=])]]. exact H. }
  intros Hres. destruct (is_auth_call c) eqn:K.
  - destruct (auth_call_shape repr server c self K)
      as [(_ & _ & E) | (rq & _ & H & E)].
    + rewrite E in Hres. discriminate.
    + unfold result_of in Hres. unfold exchanges in E.
      destruct (exec server (invoke repr c self)) as [[o s] t]. cbn in *.
      subst o t. unfold after_reply in H.
      destruct (server rq) as [r0|w]; [|discriminate].
      exists rq, r0.
      destruct (_handle_response r0) as [v0|e] eqn:Hh.
      * destruct (getitem v0 "accessToken") as [a|e] eqn:Ha.
        -- destruct (getitem v0 "refreshToken") as [b|e] eqn:Hb;
             [discriminate|].
           injection H as <- _. apply getitem_raised in Hb.
           destruct Hb; discriminate.
        -- injection H as <- _. apply getitem_raised in Ha.
           destruct Ha; discriminate.
      * injection H as <- ->. split; [reflexivity|]. now apply rejected.
  - destruct (resource_call_shape repr server c self K) as (rq & _ & E).
    rewrite E in Hres |- *. unfold result_of in Hres. cbn in Hres.
    destruct (server rq) as [r0|w]; [|discriminate].
    exists rq, r0. rewrite Hres. split; [reflexivity|]. now apply rejected.
Qed.

(** With a falsy access token ([None], the empty string, 0, [False], an
    empty list or dict) a resource method adds nothing to the session's
    headers. *)
Theorem falsy_access_token_adds_no_header
    (c : Call) (self : AccountingApiClient) (rq : Request) (rep : Reply) :
  is_auth_call c = false ->
  truthy (access_token self) = false ->
  In (rq, rep) (exchanges (exec server (invoke repr c self))) ->
  headers rq = session_headers (session self).
Proof.
  intros K T Hin.
  destruct (resource_call_shape repr server c self K) as (rq' & Hh & E).
  rewrite E in Hin. destruct Hin as [[= <- _]|[]].
  rewrite Hh. now apply get_headers_falsy.
Qed.


End Client.

(** ** Calls one after another *)

Lemma prefix_append (s t : string) : String.prefix s (s +:+ t) = true.
Proof.
  induction s as [|a s IH].
  - change (EmptyString +:+ t) with t. now destruct t.
  - change (String a s +:+ t) with (String a (s +:+ t)). cbn [String.prefix].
    destruct (Ascii.ascii_dec a a); [exact IH|contradiction].
Qed.

(** The request of a single call: the URL starts with the base URL, and the
    headers differ from the session's at most in "Authorization". *)
Lemma request_of_call (repr : value -> string) (server : Request -> Reply)
    (c : Call) (self : AccountingApiClient) (rq : Request) (rep : Reply) :
  In (rq, rep) (exchanges (exec server (invoke repr c self))) ->
  String.prefix (base_url self) (url rq) = true
  /\ forall k : string,
       k <> "Authorization" ->
       headers rq !! k = session_headers (session self) !! k.
Proof.
  intros Hin. split.
  - revert Hin.
    destruct c; run_method; try destruct (truthy (refresh_token self));
      cbn [negb]; unfold exchanges; try destruct (server _) as [r|w];
      try destruct (_handle_response r) as [v|e];
      try destruct (getitem v "accessToken") as [a|e'];
      try destruct (getitem v "refreshToken") as [b|e''];
      cbn; intros Hin; try contradiction;
      destruct Hin as [[= <- _]|[]]; apply prefix_append.
  - intros k Hk. destruct (is_auth_call c) eqn:K.
    + destruct (auth_call_shape repr server c self K)
        as [(_ & _ & E) | (rq' & Hh & _ & E)];
        rewrite E in Hin; [destruct Hin|].
      destruct Hin as [[= <- _]|[]]. now rewrite Hh.
    + destruct (resource_call_shape repr server c self K) as (rq' & Hh & E).
      rewrite E in Hin. destruct Hin as [[= <- _]|[]]. rewrite Hh.
      unfold _get_headers. destruct (truthy (access_token self)).
      * rewrite lookup_union_r; [reflexivity|].
        rewrite lookup_insert_ne by congruence. apply lookup_empty.
      * now rewrite (left_id_L ∅ (∪)).
Qed.

Lemma run_calls_frame (repr : value -> string)
    (history : list ((Request -> Reply) * Call)) (self : AccountingApiClient) :
  session (run_calls repr history self) = session self
  /\ base_url (run_calls repr history self) = base_url self.
Proof.
  revert self. induction history as [|[server c] rest IH]; intros self.
  - split; reflexivity.
  - cbn. destruct (IH (client_after (exec server (invoke repr c self))))
      as [-> ->].
    apply invoke_keeps_session.
Qed.

Section Histories.
Variable repr : value -> string.

(** Whatever calls were made before and however they ended, the next request
    goes to a URL under the client's base URL and carries the session's
    headers as they were at the start, "Authorization" apart: no method ever
    changes the base URL or the session. *)
Theorem history_keeps_base_url_and_headers
    (history : list ((Request -> Reply) * Call)) (self : AccountingApiClient)
    (server : Request -> Reply) (c : Call) (rq : Request) (rep : Reply) :
  In (rq, rep)
     (exchanges (exec server (invoke repr c (run_calls repr history self)))) ->
  String.prefix (base_url self) (url rq) = true
  /\ forall k : string,
       k <> "Authorization" ->
       headers rq !! k = session_headers (session self) !! k.
Proof.
  intros Hin. apply request_of_call in Hin.
  destruct (run_calls_frame repr history self) as [Hs Hb].
  now rewrite Hs, Hb in Hin.
Qed.

(** Every request ever sent by a client built by the constructor announces
    and accepts JSON and keeps the library's user agent: the constructor's
    "Accept" replaces the library's "*/*" for good. *)
Theorem constructed_client_sends_json_headers
    (user_agent accept_encoding base : string)
    (history : list ((Request -> Reply) * Call))
    (server : Request -> Reply) (c : Call) (rq : Request) (rep : Reply) :
  In (rq, rep)
     (exchanges
        (exec server
           (invoke repr c
              (run_calls repr history
                 (__init__ user_agent accept_encoding base))))) ->
  headers rq !! "Content-Type" = Some "application/json"
  /\ headers rq !! "Accept" = Some "application/json"
  /\ headers rq !! "User-Agent" = Some user_agent
  /\ String.prefix base (url rq) = true.
Proof.
  intros Hin. apply request_of_call in Hin.
  destruct (run_calls_frame repr history
              (__init__ user_agent accept_encoding base)) as [Hs Hb].
  rewrite Hs, Hb in Hin. destruct Hin as [Hp Hh].
  rewrite !Hh by discriminate. repeat split; try reflexivity. exact Hp.
Qed.

(** After a [login] that returned, a resource method sends the access token
    of the returned body (a non-empty string) as [Authorization: Bearer]. *)
Theorem login_then_call_sends_bearer
    (server1 server2 : Request -> Reply) (self : AccountingApiClient)
    (email password organization_id : string) (v : value) (a : string)
    (c : Call) (rq : Request) (rep : Reply) :
  result_of (exec server1 (login email password organization_id self))
  = Returned v ->
  getitem v "accessToken" = Returned (JStr a) ->
  a <> EmptyString ->
  is_auth_call c = false ->
  In (rq, rep)
     (exchanges
        (exec server2
           (invoke repr c
              (client_after
                 (exec server1 (login email password organization_id self)))))) ->
  headers rq !! "Authorization" = Some ("Bearer " +:+ a).
Proof.
  intros Hres Ha Hne K Hin.
  pose proof (token_call_postcondition repr server1
                (Login email password organization_id) self v eq_refl Hres)
    as (Ha' & _).
  change (invoke repr (Login email password organization_id) self)
    with (login email password organization_id self) in Ha'.
  set (self' := client_after
                  (exec server1 (login email password organization_id self)))
    in *.
  assert (Htok : access_token self' = JStr a) by congruence.
  destruct (resource_call_shape repr server2 c self' K) as (rq' & Hh & E).
  rewrite E in Hin. destruct Hin as [[= <- _]|[]]. rewrite Hh.
  rewrite get_headers_truthy by (rewrite Htok; now apply truthy_str).
  now rewrite Htok.
Qed.

(** After a [login] that returned, [refresh_access_token] posts the refresh
    token of the returned body (if truthy) to [base_url + "/auth/refresh"]. *)
Theorem login_then_refresh_posts_stored_token
    (server1 server2 : Request -> Reply) (self : AccountingApiClient)
    (email password organization_id : string) (v b : value) :
  result_of (exec server1 (login email password organization_id self))
  = Returned v ->
  getitem v "refreshToken" = Returned b ->
  truthy b = true ->
  map fst
    (exchanges
       (exec server2
          (refresh_access_token
             (client_after
                (exec server1 (login email password organization_id self))))))
  = [ {| method := POST;
         url := base_url self +:+ "/auth/refresh";
         headers := session_headers (session self);
         params := [];
         json := JObj {[ "refreshToken" := b ]} |} ].
Proof.
  intros Hres Hb T.
  pose proof (token_call_postcondition repr server1
                (Login email password organization_id) self v eq_refl Hres)
    as (_ & Hb' & Hbase & Hsess).
  change (invoke repr (Login email password organization_id) self)
    with (login email password organization_id self) in Hb', Hbase, Hsess.
  set (self' := client_after
                  (exec server1 (login email password organization_id self)))
    in *.
  assert (Htok : refresh_token self' = b) by congruence.
  clearbody self'. run_method. rewrite Htok, T. cbn [negb]. run_method.
  rewrite Hbase, Hsess. unfold exchanges.
  destruct (server2 _) as [r|w]; [|reflexivity].
  destruct (_handle_response r) as [v0|e]; [|reflexivity].
  destruct (getitem v0 "accessToken") as [a0|e]; [|reflexivity].
  destruct (getitem v0 "refreshToken") as [b0|e]; reflexivity.
Qed.

End Histories.


(** * The driver *)

(** A call made by the driver inside the [try]: the call runs as it does on
    its own; a value goes to the rest of the body, an exception to the
    handler. *)
Lemma play_call_step {A B : Type} (server : Request -> Reply) (r : run A)
    (out : list string) (f : A -> S B) (handler : exn -> S B) :
  play server (catch (bind_script (call_run r out) f) handler)
  = let '(o, client, t) := exec server r in
    let '(o', client', out', t') :=
      match o with
      | Returned a => play server (catch (f a client out) handler)
      | Raised e => play server (handler e client out)
      end in
    (o', client', out', t ++ t').
Proof.
  induction r as [o client|rq k IH]; cbn.
  - destruct o as [a|e]; cbn.
    + now destruct (play server (catch (f a client out) handler))
        as [[[o' c'] out'] t'].
    + now destruct (play server (handler e client out)) as [[[o' c'] out'] t'].
  - rewrite IH. destruct (exec server (k (server rq))) as [[o c] t].
    destruct o as [a|e].
    + now destruct (play server (catch (f a c out) handler))
        as [[[o' c'] out'] t'].
    + now destruct (play server (handler e c out)) as [[[o' c'] out'] t'].
Qed.

(** A call that returns has made exactly one exchange, on the line of its
    endpoint, and has kept the base URL. *)
Lemma returned_call_exchange (repr : value -> string)
    (server : Request -> Reply) (c : Call) (self self' : AccountingApiClient)
    (v : value) (t : list (Request * Reply)) :
  exec server (invoke repr c self) = (Returned v, self', t) ->
  exists (rq : Request) (rep : Reply),
    t = [(rq, rep)]
    /\ base_url self' = base_url self
    /\ method rq = match c with
                   | GetCustomers _ | GetCustomer _ | GetInvoices _ => GET
                   | _ => POST
                   end
    /\ url rq = base_url self +:+
                match c with
                | Login _ _ _ => "/auth/login"
                | RefreshAccessToken => "/auth/refresh"
                | GetCustomers _ | CreateCustomer _ => "/customers"
                | GetCustomer customer_id => "/customers/" +:+ customer_id
                | CreateInvoice _ | GetInvoices _ => "/invoices"
                end.
Proof.
  destruct c; run_method; try destruct (truthy (refresh_token self));
    cbn [negb]; try destruct (server _) as [r|w];
    try destruct (_handle_response r) as [v0|e];
    try destruct (getitem v0 "accessToken") as [a|e'];
    try destruct (getitem v0 "refreshToken") as [b|e''];
    intros H; try discriminate H; injection H as _ <- <-;
    eexists _, _; repeat split.
Qed.

Section DriverProperties.
Variables user_agent accept_encoding : string.
Variable repr : value -> string.
Variable describe : exn -> string.
Variable due_date : string.
Variable server : Request -> Reply.

(** When the login fails, in whatever way, nothing else is requested and the
    only output is the error line with the text of the exception. *)
Theorem example_usage_stops_at_failed_login (e : exn) :
  result_of
    (exec server
       (login "admin@example.com" "SecurePassword123!"
          "550e8400-e29b-41d4-a716-446655440000"
          (__init__ user_agent accept_encoding default_base_url)))
  = Raised e ->
  play server (example_usage user_agent accept_encoding repr describe due_date)
  = (Returned tt,
     client_after
       (exec server
          (login "admin@example.com" "SecurePassword123!"
             "550e8400-e29b-41d4-a716-446655440000"
             (__init__ user_agent accept_encoding default_base_url))),
     ["Error: " +:+ str_exn describe e],
     exchanges
       (exec server
          (login "admin@example.com" "SecurePassword123!"
             "550e8400-e29b-41d4-a716-446655440000"
             (__init__ user_agent accept_encoding default_base_url)))).
Proof.
  split_run server; intros H; try discriminate H;
    injection H as <-; reflexivity.
Qed.


(** The first two steps.  When the login step fails (the call raises, or the
    returned body has no "user" with an "email"), the driver prints the
    error text alone and has made the login's exchanges only.  When the login
    step succeeds and the listing step fails (the call raises, or the body
    has no "meta" with a "total"), the driver prints the login's success text
    and then the error text, and has made the exchanges of the two calls in
    that order and no other. *)
Theorem example_usage_failed_login_or_listing
    (r1 : outcome value) (c1 : AccountingApiClient)
    (t1 : list (Request * Reply)) :
  exec server
    (login "admin@example.com" "SecurePassword123!"
       "550e8400-e29b-41d4-a716-446655440000"
       (__init__ user_agent accept_encoding default_base_url))
  = (r1, c1, t1) ->
  (forall e : exn,
     (r1 ≫= fun v => getitem v "user" ≫= fun u => getitem u "email")
     = Raised e ->
     play server
       (example_usage user_agent accept_encoding repr describe due_date)
     = (Returned tt, c1, ["Error: " +:+ str_exn describe e], t1))
  /\ (forall (email : value) (r2 : outcome value) (c2 : AccountingApiClient)
        (t2 : list (Request * Reply)) (e : exn),
        (r1 ≫= fun v => getitem v "user" ≫= fun u => getitem u "email")
        = Returned email ->
        exec server
          (get_customers repr
             [("limit", JInt 20); ("offset", JInt 0);
              ("sort_by", JStr "createdAt"); ("sort_order", JStr "desc")] c1)
        = (r2, c2, t2) ->
        (r2 ≫= fun v => getitem v "meta" ≫= fun m => getitem m "total")
        = Raised e ->
        play server
          (example_usage user_agent accept_encoding repr describe due_date)
        = (Returned tt, c2,
           ["Login successful: " +:+ py_format repr email;
            "Error: " +:+ str_exn describe e],
           t1 ++ t2)).
Proof.
  intros H1.
  remember (play server
              (example_usage user_agent accept_encoding repr describe due_date))
    as whole eqn:E.
  unfold example_usage, example_steps, try_except in E.
  unfold mbind, S_bind, call, eval, print in E.
  rewrite play_call_step, H1 in E.
  split.
  - intros e F1. subst whole. destruct r1 as [v1|e1].
    + case_lookups F1; injection F1 as ->; cbn; now rewrite app_nil_r.
    + injection F1 as ->. cbn. now rewrite app_nil_r.
  - intros email r2 c2 t2 e F1 H2 F2. subst whole.
    destruct r1 as [v1|e1]; [|discriminate F1].
    case_lookups F1. injection F1 as ->. cbn [bind_script].
    rewrite play_call_step, H2.
    destruct r2 as [v2|e2].
    + case_lookups F2; injection F2 as ->; cbn; now rewrite app_nil_r.
    + injection F2 as ->. cbn. now rewrite app_nil_r.
Qed.

(** The last two steps.  With login and listing done, a failure of the
    creation step (the call raises, or the body has no "id") gives the two
    success texts and then the error text; a failure of the invoice step
    gives the three success texts and then the error text.  The exchanges are
    those of the calls made, in order, and the error text is the last thing
    printed. *)
Theorem example_usage_failed_creation_or_invoice
    (r1 r2 r3 : outcome value) (c1 c2 c3 : AccountingApiClient)
    (t1 t2 t3 : list (Request * Reply)) (email total : value) :
  exec server
    (login "admin@example.com" "SecurePassword123!"
       "550e8400-e29b-41d4-a716-446655440000"
       (__init__ user_agent accept_encoding default_base_url))
  = (r1, c1, t1) ->
  (r1 ≫= fun v => getitem v "user" ≫= fun u => getitem u "email")
  = Returned email ->
  exec server
    (get_customers repr
       [("limit", JInt 20); ("offset", JInt 0);
        ("sort_by", JStr "createdAt"); ("sort_order", JStr "desc")] c1)
  = (r2, c2, t2) ->
  (r2 ≫= fun v => getitem v "meta" ≫= fun m => getitem m "total")
  = Returned total ->
  exec server (create_customer repr new_customer_data c2) = (r3, c3, t3) ->
  (forall e : exn,
     (r3 ≫= fun v => getitem v "id") = Raised e ->
     play server
       (example_usage user_agent accept_encoding repr describe due_date)
     = (Returned tt, c3,
        ["Login successful: " +:+ py_format repr email;
         "Found " +:+ py_format repr total +:+ " customers";
         "Error: " +:+ str_exn describe e],
        t1 ++ t2 ++ t3))
  /\ (forall (id : value) (r4 : outcome value) (c4 : AccountingApiClient)
        (t4 : list (Request * Reply)) (e : exn),
        (r3 ≫= fun v => getitem v "id") = Returned id ->
        exec server (create_invoice repr (invoice_data id due_date) c3)
        = (r4, c4, t4) ->
        (r4 ≫= fun v => getitem v "id") = Raised e ->
        play server
          (example_usage user_agent accept_encoding repr describe due_date)
        = (Returned tt, c4,
           ["Login successful: " +:+ py_format repr email;
            "Found " +:+ py_format repr total +:+ " customers";
            "New customer created: " +:+ py_format repr id;
            "Error: " +:+ str_exn describe e],
           t1 ++ t2 ++ t3 ++ t4)).
Proof.
  intros H1 F1 H2 F2 H3.
  remember (play server
              (example_usage user_agent accept_encoding repr describe due_date))
    as whole eqn:E.
  unfold example_usage, example_steps, try_except in E.
  unfold mbind, S_bind, call, eval, print in E.
  rewrite play_call_step, H1 in E.
  destruct r1 as [v1|e1]; [|discriminate F1].
  revert E. case_lookups F1. injection F1 as ->.
  rewrite play_call_step, H2.
  destruct r2 as [v2|e2]; [|discriminate F2].
  case_lookups F2. injection F2 as ->.
  rewrite play_call_step, H3. intros E.
  split.
  - intros e F3. subst whole. destruct r3 as [v3|e3].
    + case_lookups F3. injection F3 as ->. cbn. now rewrite app_nil_r.
    + injection F3 as ->. cbn. now rewrite app_nil_r.
  - intros id r4 c4 t4 e F3 H4 F4. subst whole.
    destruct r3 as [v3|e3]; [|discriminate F3].
    case_lookups F3. injection F3 as ->.
    rewrite play_call_step, H4.
    destruct r4 as [v4|e4].
    + case_lookups F4. injection F4 as ->. cbn. now rewrite app_nil_r.
    + injection F4 as ->. cbn. now rewrite app_nil_r.
Qed.

(** When all four steps succeed, the driver prints exactly the four success
    texts, in order, and its exchanges are exactly those of the four calls,
    in order: POST /auth/login, GET /customers, POST /customers and
    POST /invoices under the default base URL; the invoice posted is the one
    built for the "id" of the customer just created. *)
Theorem example_usage_all_steps_succeed
    (r1 r2 r3 r4 : outcome value) (c1 c2 c3 c4 : AccountingApiClient)
    (t1 t2 t3 t4 : list (Request * Reply)) (email total id number : value) :
  exec server
    (login "admin@example.com" "SecurePassword123!"
       "550e8400-e29b-41d4-a716-446655440000"
       (__init__ user_agent accept_encoding default_base_url))
  = (r1, c1, t1) ->
  (r1 ≫= fun v => getitem v "user" ≫= fun u => getitem u "email")
  = Returned email ->
  exec server
    (get_customers repr
       [("limit", JInt 20); ("offset", JInt 0);
        ("sort_by", JStr "createdAt"); ("sort_order", JStr "desc")] c1)
  = (r2, c2, t2) ->
  (r2 ≫= fun v => getitem v "meta" ≫= fun m => getitem m "total")
  = Returned total ->
  exec server (create_customer repr new_customer_data c2) = (r3, c3, t3) ->
  (r3 ≫= fun v => getitem v "id") = Returned id ->
  exec server (create_invoice repr (invoice_data id due_date) c3)
  = (r4, c4, t4) ->
  (r4 ≫= fun v => getitem v "id") = Returned number ->
  play server (example_usage user_agent accept_encoding repr describe due_date)
  = (Returned tt, c4,
     ["Login successful: " +:+ py_format repr email;
      "Found " +:+ py_format repr total +:+ " customers";
      "New customer created: " +:+ py_format repr id;
      "New invoice created: " +:+ py_format repr number],
     t1 ++ t2 ++ t3 ++ t4)
  /\ map (fun x : Request * Reply => (method (fst x), url (fst x)))
       (t1 ++ t2 ++ t3 ++ t4)
     = [ (POST, default_base_url +:+ "/auth/login");
         (GET, default_base_url +:+ "/customers");
         (POST, default_base_url +:+ "/customers");
         (POST, default_base_url +:+ "/invoices") ].
Proof.
  intros H1 F1 H2 F2 H3 F3 H4 F4.
  destruct r1 as [v1|e1]; [|discriminate F1].
  destruct r2 as [v2|e2]; [|discriminate F2].
  destruct r3 as [v3|e3]; [|discriminate F3].
  destruct r4 as [v4|e4]; [|discriminate F4].
  split.
  - unfold example_usage, example_steps, try_except.
    unfold mbind, S_bind, call, eval, print.
    rewrite play_call_step, H1. case_lookups F1. injection F1 as ->.
    rewrite play_call_step, H2. case_lookups F2. injection F2 as ->.
    rewrite play_call_step, H3. case_lookups F3. injection F3 as ->.
    rewrite play_call_step, H4. case_lookups F4. injection F4 as ->.
    cbn. now rewrite app_nil_r.
  - destruct (returned_call_exchange repr server
                (Login "admin@example.com" "SecurePassword123!"
                   "550e8400-e29b-41d4-a716-446655440000") _ _ _ _ H1)
      as (q1 & p1 & -> & B1 & M1 & U1).
    destruct (returned_call_exchange repr server (GetCustomers _) _ _ _ _ H2)
      as (q2 & p2 & -> & B2 & M2 & U2).
    destruct (returned_call_exchange repr server (CreateCustomer _) _ _ _ _ H3)
      as (q3 & p3 & -> & B3 & M3 & U3).
    destruct (returned_call_exchange repr server (CreateInvoice _) _ _ _ _ H4)
      as (q4 & p4 & -> & B4 & M4 & U4).
    cbn [map app fst]. rewrite M1, M2, M3, M4, U1, U2, U3, U4.
    rewrite B3, B2, B1. reflexivity.
Qed.

End DriverProperties.

(** ** The further properties on concrete runs *)

Lemma refresh_replaces_both_tokens_example :
  exec (answer 200 login_text (Some (JObj login_body)))
    (refresh_access_token
       {| base_url := "http://localhost:3000/api/v1";
          access_token := JStr "stale";
          refresh_token := JStr "old";
          session := session example_client |})
  = (Returned (JObj login_body),
     {| base_url := "http://localhost:3000/api/v1";
        access_token := JStr "a";
        refresh_token := JStr "b";
        session := session example_client |},
     [({| method := POST;
          url := "http://localhost:3000/api/v1/auth/refresh";
          headers := session_headers (session example_client);
          params := [];
          json := JObj {[ "refreshToken" := JStr "old" ]} |},
       Responded {| status_code := 200; content := login_text;
                    decoded := Some (JObj login_body) |})])
  /\ access_token
       (client_after
          (exec (answer 200 login_text (Some (JObj login_body)))
             (refresh_access_token
                {| base_url := "http://localhost:3000/api/v1";
                   access_token := JStr "stale";
                   refresh_token := JStr "old";
                   session := session example_client |})))
     = JStr "a"
  /\ refresh_token
       (client_after
          (exec (answer 200 login_text (Some (JObj login_body)))
             (refresh_access_token
                {| base_url := "http://localhost:3000/api/v1";
                   access_token := JStr "stale";
                   refresh_token := JStr "old";
                   session := session example_client |})))
     = JStr "b".
Proof.
  apply (refresh_replaces_both_tokens
           (answer 200 login_text (Some (JObj login_body)))
           {| base_url := "http://localhost:3000/api/v1";
              access_token := JStr "stale";
              refresh_token := JStr "old";
              session := session example_client |}
           {| status_code := 200; content := login_text;
              decoded := Some (JObj login_body) |}
           login_body (JStr "a") (JStr "b")).
  - reflexivity.
  - reflexivity.
  - cbn. lia.
  - reflexivity.
  - reflexivity.
  - reflexivity.
Defined.

Lemma refresh_with_falsy_token_raises_locally_example :
  exec shop (refresh_access_token blank_refresh_client)
  = (Raised (Exception "No refresh token available"), blank_refresh_client, []).
Proof.
  apply (refresh_with_falsy_token_raises_locally shop blank_refresh_client).
  reflexivity.
Defined.

Lemma transport_failure_propagates_example :
  exists rq : Request,
    exec refusing (invoke example_repr (GetCustomer "42") logged_in_client)
    = (Raised (RequestException "Connection refused"), logged_in_client,
       [(rq, Failed "Connection refused")]).
Proof.
  eexists.
  eapply (transport_failure_propagates example_repr refusing
            (GetCustomer "42") logged_in_client).
  left. reflexivity.
Defined.

Lemma non_json_body_raises_decode_error_example :
  exists rq : Request,
    exec (answer 204 EmptyString None)
      (invoke example_repr (CreateCustomer new_customer_data) logged_in_client)
    = (Raised (JSONDecodeError {| status_code := 204; content := EmptyString;
                                  decoded := None |}),
       logged_in_client,
       [(rq, Responded {| status_code := 204; content := EmptyString;
                          decoded := None |})]).
Proof.
  eexists.
  eapply (non_json_body_raises_decode_error example_repr
            (answer 204 EmptyString None)
            (CreateCustomer new_customer_data) logged_in_client).
  - left. reflexivity.
  - cbn. lia.
  - cbn. lia.
  - reflexivity.
Defined.

Lemma missing_access_token_stores_nothing_example :
  exists rq : Request,
    exec (answer 200 (object_text [("refreshToken", quote "b2")])
            (Some (JObj refresh_only_body)))
      (invoke example_repr example_login logged_in_client)
    = (Raised (KeyError "accessToken"), logged_in_client,
       [(rq, Responded {| status_code := 200;
                          content := object_text [("refreshToken", quote "b2")];
                          decoded := Some (JObj refresh_only_body) |})]).
Proof.
  eexists.
  eapply (missing_access_token_stores_nothing example_repr
            (answer 200 (object_text [("refreshToken", quote "b2")])
               (Some (JObj refresh_only_body)))
            example_login logged_in_client _ _ refresh_only_body).
  - reflexivity.
  - left. reflexivity.
  - cbn. lia.
  - reflexivity.
  - reflexivity.
Defined.

Lemma non_object_body_stores_nothing_example :
  exists rq : Request,
    exec (answer 200 "[]" (Some (JArr [])))
      (invoke example_repr RefreshAccessToken logged_in_client)
    = (Raised (TypeError (JArr [])), logged_in_client,
       [(rq, Responded {| status_code := 200; content := "[]";
                          decoded := Some (JArr []) |})]).
Proof.
  eexists.
  eapply (non_object_body_stores_nothing example_repr
            (answer 200 "[]" (Some (JArr [])))
            RefreshAccessToken logged_in_client).
  - reflexivity.
  - left. reflexivity.
  - cbn. lia.
  - reflexivity.
  - intros m. discriminate.
Defined.

Lemma returned_body_gives_both_tokens_example :
  getitem (JObj login_body) "accessToken"
  = Returned (access_token
                (client_after (exec shop (invoke example_repr example_login
                                            example_client))))
  /\ getitem (JObj login_body) "refreshToken"
     = Returned (refresh_token
                   (client_after (exec shop (invoke example_repr example_login
                                               example_client))))
  /\ base_url (client_after (exec shop (invoke example_repr example_login
                                          example_client)))
     = base_url example_client
  /\ session (client_after (exec shop (invoke example_repr example_login
                                         example_client)))
     = session example_client.
Proof.
  apply (returned_body_gives_both_tokens example_repr shop example_login
           example_client (JObj login_body)).
  - reflexivity.
  - reflexivity.
Defined.

Lemma returned_value_is_decoded_body_example :
  exists (rq : Request) (r : Response),
    exchanges (exec shop (invoke example_repr (GetCustomers page_params)
                            logged_in_client))
    = [(rq, Responded r)]
    /\ decoded r = Some customers_page
    /\ status_code r <> 401
    /\ ~ 400 <= status_code r < 600.
Proof.
  apply (returned_value_is_decoded_body example_repr shop
           (GetCustomers page_params) logged_in_client customers_page).
  reflexivity.
Defined.

Lemma http_error_carries_received_response_example :
  (exists rq : Request,
     exchanges (exec (answer 404 "Not Found" None)
                  (invoke example_repr (GetCustomer "42") logged_in_client))
     = [(rq, Responded {| status_code := 404; content := "Not Found";
                          decoded := None |})])
  /\ 400 <= 404 < 600
  /\ 404 <> 401
  /\ client_after (exec (answer 404 "Not Found" None)
                     (invoke example_repr (GetCustomer "42") logged_in_client))
     = logged_in_client.
Proof.
  apply (http_error_carries_received_response example_repr
           (answer 404 "Not Found" None) (GetCustomer "42") logged_in_client
           {| status_code := 404; content := "Not Found"; decoded := None |}).
  reflexivity.
Defined.

Lemma authentication_failed_means_401_example :
  exists (rq : Request) (r : Response),
    exec (answer 401 expired_text None)
      (invoke example_repr example_login example_client)
    = (Raised (Exception "Authentication failed. Please login again."),
       example_client, [(rq, Responded r)])
    /\ status_code r = 401.
Proof.
  apply (authentication_failed_means_401 example_repr
           (answer 401 expired_text None) example_login example_client).
  reflexivity.
Defined.

Lemma falsy_access_token_adds_no_header_example :
  exists rq : Request,
    In (rq, shop rq)
       (exchanges (exec shop (invoke example_repr (GetCustomers page_params)
                                zero_token_client)))
    /\ headers rq = session_headers (session zero_token_client).
Proof.
  eexists. split.
  - left. reflexivity.
  - eapply (falsy_access_token_adds_no_header example_repr shop
              (GetCustomers page_params) zero_token_client).
    + reflexivity.
    + reflexivity.
    + left. reflexivity.
Defined.


Lemma history_keeps_base_url_and_headers_example :
  exists (rq : Request) (rep : Reply),
    In (rq, rep)
       (exchanges
          (exec shop
             (invoke example_repr (CreateInvoice (JObj ∅))
                (run_calls example_repr example_history example_client))))
    /\ String.prefix default_base_url (url rq) = true
    /\ headers rq !! "Connection" = Some "keep-alive".
Proof.
  eexists _, _. split.
  - vm_compute. left. reflexivity.
  - assert (Hin : In (_, _)
                    (exchanges
                       (exec shop
                          (invoke example_repr (CreateInvoice (JObj ∅))
                             (run_calls example_repr example_history
                                example_client)))))
      by (vm_compute; left; reflexivity).
    destruct (history_keeps_base_url_and_headers example_repr example_history
                example_client shop (CreateInvoice (JObj ∅)) _ _ Hin)
      as [Hp Hh].
    split; [exact Hp|]. rewrite Hh by discriminate. reflexivity.
Defined.

Lemma constructed_client_sends_json_headers_example :
  exists (rq : Request) (rep : Reply),
    In (rq, rep)
       (exchanges
          (exec shop
             (invoke example_repr (CreateInvoice (JObj ∅))
                (run_calls example_repr example_history example_client))))
    /\ headers rq !! "Content-Type" = Some "application/json"
    /\ headers rq !! "Accept" = Some "application/json"
    /\ headers rq !! "User-Agent" = Some "python-requests/2.31.0"
    /\ String.prefix default_base_url (url rq) = true.
Proof.
  eexists _, _. split.
  - vm_compute. left. reflexivity.
  - eapply (constructed_client_sends_json_headers example_repr
              "python-requests/2.31.0" "gzip, deflate" default_base_url
              example_history shop (CreateInvoice (JObj ∅))).
    vm_compute. left. reflexivity.
Defined.

Lemma login_then_call_sends_bearer_example :
  exists rq : Request,
    In (rq, refusing rq)
       (exchanges
          (exec refusing
             (invoke example_repr (GetCustomers page_params)
                (client_after
                   (exec shop
                      (login "admin@example.com" "SecurePassword123!"
                         "550e8400-e29b-41d4-a716-446655440000"
                         example_client))))))
    /\ headers rq !! "Authorization" = Some "Bearer a".
Proof.
  eexists. split.
  - left. reflexivity.
  - eapply (login_then_call_sends_bearer example_repr shop refusing
              example_client "admin@example.com" "SecurePassword123!"
              "550e8400-e29b-41d4-a716-446655440000" (JObj login_body) "a"
              (GetCustomers page_params)).
    + reflexivity.
    + reflexivity.
    + discriminate.
    + reflexivity.
    + left. reflexivity.
Defined.

Lemma login_then_refresh_posts_stored_token_example :
  map fst
    (exchanges
       (exec refusing
          (refresh_access_token
             (client_after
                (exec shop
                   (login "admin@example.com" "SecurePassword123!"
                      "550e8400-e29b-41d4-a716-446655440000"
                      example_client))))))
  = [ {| method := POST;
         url := base_url example_client +:+ "/auth/refresh";
         headers := session_headers (session example_client);
         params := [];
         json := JObj {[ "refreshToken" := JStr "b" ]} |} ].
Proof.
  apply (login_then_refresh_posts_stored_token example_repr shop refusing
           example_client "admin@example.com" "SecurePassword123!"
           "550e8400-e29b-41d4-a716-446655440000" (JObj login_body) (JStr "b")).
  - reflexivity.
  - reflexivity.
  - reflexivity.
Defined.

Lemma example_usage_stops_at_failed_login_example :
  play (answer 401 expired_text None)
    (example_usage "python-requests/2.31.0" "gzip, deflate" example_repr
       example_describe example_due_date)
  = (Returned tt,
     client_after
       (exec (answer 401 expired_text None)
          (login "admin@example.com" "SecurePassword123!"
             "550e8400-e29b-41d4-a716-446655440000"
             (__init__ "python-requests/2.31.0" "gzip, deflate"
                default_base_url))),
     ["Error: Authentication failed. Please login again."],
     exchanges
       (exec (answer 401 expired_text None)
          (login "admin@example.com" "SecurePassword123!"
             "550e8400-e29b-41d4-a716-446655440000"
             (__init__ "python-requests/2.31.0" "gzip, deflate"
                default_base_url)))).
Proof.
  apply (example_usage_stops_at_failed_login "python-requests/2.31.0"
           "gzip, deflate" example_repr example_describe example_due_date
           (answer 401 expired_text None)
           (Exception "Authentication failed. Please login again.")).
  reflexivity.
Defined.


Lemma example_usage_failed_login_or_listing_example :
  script_stdout
    (play shop_login_only
       (example_usage "python-requests/2.31.0" "gzip, deflate" example_repr
          example_describe example_due_date))
  = [ "Login successful: admin@example.com";
      "Error: ..." ]
  /\ map (fun x : Request * Reply => (method (fst x), url (fst x)))
       (script_exchanges
          (play shop_login_only
             (example_usage "python-requests/2.31.0" "gzip, deflate"
                example_repr example_describe example_due_date)))
     = [ (POST, "http://localhost:3000/api/v1/auth/login");
         (GET, "http://localhost:3000/api/v1/customers") ].
Proof.
  set (L1 := exec shop_login_only
          (login "admin@example.com" "SecurePassword123!"
               "550e8400-e29b-41d4-a716-446655440000"
               (__init__ "python-requests/2.31.0" "gzip, deflate"
                  default_base_url))).
  set (L2 := exec shop_login_only
          (get_customers example_repr
               [("limit", JInt 20); ("offset", JInt 0);
                ("sort_by", JStr "createdAt"); ("sort_order", JStr "desc")]
               (client_after L1))).
  destruct (example_usage_failed_login_or_listing "python-requests/2.31.0" "gzip, deflate"
              example_repr example_describe example_due_date shop_login_only
              (result_of L1) (client_after L1) (exchanges L1)) as [_ P].
  { vm_compute. reflexivity. }
  rewrite (P (JStr "admin@example.com") (result_of L2) (client_after L2)
             (exchanges L2)
             (HTTPError {| status_code := 500;
                           content := "Internal Server Error";
                           decoded := None |})).
  - split; vm_compute; reflexivity.
  - vm_compute. reflexivity.
  - vm_compute. reflexivity.
  - vm_compute. reflexivity.
Defined.

Lemma example_usage_failed_creation_or_invoice_example :
  script_stdout
    (play shop_without_invoices
       (example_usage "python-requests/2.31.0" "gzip, deflate" example_repr
          example_describe example_due_date))
  = [ "Login successful: admin@example.com";
      "Found 0 customers";
      "New customer created: cus-1";
      "Error: ..." ]
  /\ map (fun x : Request * Reply => (method (fst x), url (fst x)))
       (script_exchanges
          (play shop_without_invoices
             (example_usage "python-requests/2.31.0" "gzip, deflate"
                example_repr example_describe example_due_date)))
     = [ (POST, "http://localhost:3000/api/v1/auth/login");
         (GET, "http://localhost:3000/api/v1/customers");
         (POST, "http://localhost:3000/api/v1/customers");
         (POST, "http://localhost:3000/api/v1/invoices") ].
Proof.
  set (L1 := exec shop_without_invoices
          (login "admin@example.com" "SecurePassword123!"
               "550e8400-e29b-41d4-a716-446655440000"
               (__init__ "python-requests/2.31.0" "gzip, deflate"
                  default_base_url))).
  set (L2 := exec shop_without_invoices
          (get_customers example_repr
               [("limit", JInt 20); ("offset", JInt 0);
                ("sort_by", JStr "createdAt"); ("sort_order", JStr "desc")]
               (client_after L1))).
  set (L3 := exec shop_without_invoices
          (create_customer example_repr new_customer_data (client_after L2))).
  set (L4 := exec shop_without_invoices
          (create_invoice example_repr
             (invoice_data (JStr "cus-1") example_due_date)
             (client_after L3))).
  destruct (example_usage_failed_creation_or_invoice "python-requests/2.31.0" "gzip, deflate"
              example_repr example_describe example_due_date
              shop_without_invoices
              (result_of L1) (result_of L2) (result_of L3)
              (client_after L1) (client_after L2) (client_after L3)
              (exchanges L1) (exchanges L2) (exchanges L3)
              (JStr "admin@example.com") (JInt 0)) as [_ P].
  { vm_compute. reflexivity. }
  { vm_compute. reflexivity. }
  { vm_compute. reflexivity. }
  { vm_compute. reflexivity. }
  { vm_compute. reflexivity. }
  rewrite (P (JStr "cus-1") (result_of L4) (client_after L4) (exchanges L4)
             (HTTPError {| status_code := 422;
                           content := "Unprocessable Entity";
                           decoded := None |})).
  - split; vm_compute; reflexivity.
  - vm_compute. reflexivity.
  - vm_compute. reflexivity.
  - vm_compute. reflexivity.
Defined.

Lemma example_usage_all_steps_succeed_example :
  script_stdout
    (play shop
       (example_usage "python-requests/2.31.0" "gzip, deflate" example_repr
          example_describe example_due_date))
  = [ "Login successful: admin@example.com";
      "Found 0 customers";
      "New customer created: cus-1";
      "New invoice created: inv-1" ]
  /\ map (fun x : Request * Reply => (method (fst x), url (fst x)))
       (script_exchanges
          (play shop
             (example_usage "python-requests/2.31.0" "gzip, deflate"
                example_repr example_describe example_due_date)))
     = [ (POST, "http://localhost:3000/api/v1/auth/login");
         (GET, "http://localhost:3000/api/v1/customers");
         (POST, "http://localhost:3000/api/v1/customers");
         (POST, "http://localhost:3000/api/v1/invoices") ].
Proof.
  set (L1 := exec shop
          (login "admin@example.com" "SecurePassword123!"
               "550e8400-e29b-41d4-a716-446655440000"
               (__init__ "python-requests/2.31.0" "gzip, deflate"
                  default_base_url))).
  set (L2 := exec shop
          (get_customers example_repr
               [("limit", JInt 20); ("offset", JInt 0);
                ("sort_by", JStr "createdAt"); ("sort_order", JStr "desc")]
               (client_after L1))).
  set (L3 := exec shop
          (create_customer example_repr new_customer_data (client_after L2))).
  set (L4 := exec shop
          (create_invoice example_repr
             (invoice_data (JStr "cus-1") example_due_date)
             (client_after L3))).
  destruct (example_usage_all_steps_succeed "python-requests/2.31.0" "gzip, deflate"
              example_repr example_describe example_due_date shop
              (result_of L1) (result_of L2) (result_of L3) (result_of L4)
              (client_after L1) (client_after L2) (client_after L3)
              (client_after L4)
              (exchanges L1) (exchanges L2) (exchanges L3) (exchanges L4)
              (JStr "admin@example.com") (JInt 0) (JStr "cus-1")
              (JStr "inv-1")) as [P Q].
  { vm_compute. reflexivity. }
  { vm_compute. reflexivity. }
  { vm_compute. reflexivity. }
  { vm_compute. reflexivity. }
  { vm_compute. reflexivity. }
  { vm_compute. reflexivity. }
  { vm_compute. reflexivity. }
  { vm_compute. reflexivity. }
  rewrite P. split; [vm_compute; reflexivity | exact Q].
Defined.
